(** * fossdriver.parser: extraction of uploads and jobs from FOSSology responses

    A shallow embedding of [fossdriver/parser.py].  The module scrapes the
    HTML and JSON that the FOSSology web interface answers with.  The two
    libraries it calls, [bs4] (with the lxml tree builder) and [json], are
    outside the repository: the tree that [bs4.BeautifulSoup(markup, "lxml")]
    builds and the value that [json.loads] decodes are taken as parameters of
    the development (Section [Parser]); everything the module itself does
    with trees, strings and decoded values is defined here and computes.

    Conventions.
    - A Python [str] is a [string]; a character is read as its code point,
      which the model keeps below 256.
    - A call either returns or raises: [result A] is [Ret a] or [Raise e].
    - JSON numbers with a fraction or an exponent are not part of [pyval]. *)

From Stdlib Require Import ZArith String Ascii List Bool Lia.
From stdpp Require Import base tactics option list strings.

Set Warnings "-register-all".

Local Open Scope string_scope.
Local Open Scope Z_scope.
Local Open Scope list_scope.

(** ** Exceptions and the result of a call *)

Inductive exn : Set :=
| AttributeError
| IndexError
| KeyError
| TypeError
| ValueError
| JSONDecodeError.

Inductive result (A : Type) : Type :=
| Ret (a : A)
| Raise (e : exn).

Arguments Ret {A} a.
Arguments Raise {A} e.

#[global] Instance result_ret : MRet result := @Ret.
#[global] Instance result_bind : MBind result := fun A B f m =>
  match m with
  | Ret a => f a
  | Raise e => Raise e
  end.

Definition returns {A} (m : result A) : Prop := exists a, m = Ret a.
Definition raises {A} (m : result A) : Prop := exists e, m = Raise e.

(** ** Strings: the [str] methods the module calls *)

Module Str.

Definition code (c : ascii) : N := N_of_ascii c.

(** Characters removed by [str.strip()]: the code points for which
    [str.isspace] holds, below 256. *)
Definition isspace (c : ascii) : bool :=
  let n := code c in
  ((9 <=? n) && (n <=? 13) || (28 <=? n) && (n <=? 32)
   || (n =? 133) || (n =? 160))%N.

Fixpoint lstrip (s : string) : string :=
  match s with
  | String c s' => if isspace c then lstrip s' else s
  | EmptyString => EmptyString
  end.

Fixpoint rstrip (s : string) : string :=
  match s with
  | String c s' =>
      match rstrip s' with
      | EmptyString => if isspace c then EmptyString else String c EmptyString
      | r => String c r
      end
  | EmptyString => EmptyString
  end.

(** [s.strip()] *)
Definition strip (s : string) : string := rstrip (lstrip s).

(** [s] with the prefix [sep] removed, when [s] starts with [sep]. *)
Fixpoint after_prefix (sep s : string) : option string :=
  match sep, s with
  | EmptyString, _ => Some s
  | String a sep', String b s' =>
      if Ascii.eqb a b then after_prefix sep' s' else None
  | String _ _, EmptyString => None
  end.

(** The text before and after the first occurrence of [sep] in [s]. *)
Fixpoint find (sep s : string) : option (string * string) :=
  match after_prefix sep s with
  | Some rest => Some (EmptyString, rest)
  | None =>
      match s with
      | String c s' =>
          match find sep s' with
          | Some (before, rest) => Some (String c before, rest)
          | None => None
          end
      | EmptyString => None
      end
  end.

(** [sep in s] *)
Definition contains (sep s : string) : bool :=
  match find sep s with Some _ => true | None => false end.

(** [s.partition(sep)], for a non-empty [sep]. *)
Definition partition (s sep : string) : string * string * string :=
  match find sep s with
  | Some (before, rest) => (before, sep, rest)
  | None => (s, EmptyString, EmptyString)
  end.

(** *** [int(s)] on a string, base ten *)

(** Blanks that [int] skips around the literal. *)
Definition int_blank (c : ascii) : bool :=
  let n := code c in
  ((9 <=? n) && (n <=? 13) || (n =? 32) || (n =? 133) || (n =? 160))%N.

Fixpoint int_lstrip (s : string) : string :=
  match s with
  | String c s' => if int_blank c then int_lstrip s' else s
  | EmptyString => EmptyString
  end.

Fixpoint int_rstrip (s : string) : string :=
  match s with
  | String c s' =>
      match int_rstrip s' with
      | EmptyString => if int_blank c then EmptyString else String c EmptyString
      | r => String c r
      end
  | EmptyString => EmptyString
  end.

Definition digit (c : ascii) : option Z :=
  let n := code c in
  if ((48 <=? n) && (n <=? 57))%N then Some (Z.of_N n - 48) else None.

(** Digits, with single underscores allowed between two digits. *)
Fixpoint digits (acc : Z) (after_digit : bool) (s : string) : option Z :=
  match s with
  | EmptyString => if after_digit then Some acc else None
  | String c s' =>
      match digit c with
      | Some d => digits (10 * acc + d) true s'
      | None =>
          if Ascii.eqb c "_" && after_digit then digits acc false s' else None
      end
  end.

Definition signed (s : string) : option Z :=
  match s with
  | String c s' =>
      if Ascii.eqb c "-" then Z.opp <$> digits 0 false s'
      else if Ascii.eqb c "+" then digits 0 false s'
      else digits 0 false s
  | EmptyString => None
  end.

(** The interpreter converts no literal of more digits than this, its
    default [sys.int_max_str_digits]; underscores and the sign do not count. *)
Definition int_max_str_digits : N := 4300.

Fixpoint count_digits (s : string) : N :=
  match s with
  | String c s' =>
      match digit c with
      | Some _ => N.succ (count_digits s')
      | None => count_digits s'
      end
  | EmptyString => 0%N
  end.

Definition to_int (s : string) : result Z :=
  let literal := int_rstrip (int_lstrip s) in
  match signed literal with
  | Some z =>
      if (int_max_str_digits <? count_digits literal)%N
      then Raise ValueError
      else Ret z
  | None => Raise ValueError
  end.

End Str.

(** ** Decoded JSON and plain Python values *)

Inductive pyval : Type :=
| PNone
| PBool (b : bool)
| PInt (z : Z)
| PStr (s : string)
| PList (items : list pyval)
| PDict (entries : list (string * pyval)).

(** A [dict] with [str] keys is kept as its entries; a key occurs once. *)
Fixpoint lookup_key {A} (key : string) (entries : list (string * A)) : option A :=
  match entries with
  | (k, v) :: rest => if String.eqb k key then Some v else lookup_key key rest
  | [] => None
  end.

(** [v.get(key, default)]: only a [dict] has the method. *)
Definition py_get (v : pyval) (key : string) (default : pyval) : result pyval :=
  match v with
  | PDict entries =>
      match lookup_key key entries with
      | Some x => Ret x
      | None => Ret default
      end
  | PNone | PBool _ | PInt _ | PStr _ | PList _ => Raise AttributeError
  end.

(** [v[i]] for a literal index [i >= 0]. *)
Definition py_index (v : pyval) (i : nat) : result pyval :=
  match v with
  | PList items =>
      match items !! i with Some x => Ret x | None => Raise IndexError end
  | PStr s =>
      match String.get i s with
      | Some c => Ret (PStr (String c EmptyString))
      | None => Raise IndexError
      end
  | PDict _ => Raise KeyError
  | PNone | PBool _ | PInt _ => Raise TypeError
  end.

(** ** The parse tree of the markup reader *)

Inductive node : Type :=
| NavigableString (s : string)
| Comment (s : string)
| Tag (name : string) (attrs : list (string * string)) (contents : list node).

(** What a field of a record may hold: a tree node or a plain value. *)
Inductive pyobj : Type :=
| PyNode (n : node)
| PyVal (v : pyval).

Module Soup.

(** Everything below a node, in document order. *)
Fixpoint descendants (n : node) : list node :=
  match n with
  | Tag _ _ contents => flat_map (fun c => c :: descendants c) contents
  | NavigableString _ | Comment _ => []
  end.

(** [tag.get(key, None)] / [tag.attrs.get(key)].  An attribute is kept as
    the text written in the markup; of [class], which bs4 hands out as a
    list, the module only asks whether it is there. *)
Definition get (n : node) (key : string) : option string :=
  match n with
  | Tag _ attrs _ => lookup_key key attrs
  | NavigableString _ | Comment _ => None
  end.

(** [tag[key]] *)
Definition getitem (n : node) (key : string) : result string :=
  match get n key with
  | Some v => Ret v
  | None => Raise KeyError
  end.

Definition contents (n : node) : list node :=
  match n with
  | Tag _ _ cs => cs
  | NavigableString _ | Comment _ => []
  end.

Definition has_attrs (filter : list (string * string)) (n : node) : bool :=
  forallb (fun kv => match get n (fst kv) with
                     | Some v => String.eqb v (snd kv)
                     | None => false
                     end) filter.

Definition is_tag (name : string) (filter : list (string * string)) (n : node) : bool :=
  match n with
  | Tag nm _ _ => String.eqb nm name && has_attrs filter n
  | NavigableString _ | Comment _ => false
  end.

(** [n.find_all(name, filter)] *)
Definition find_all (n : node) (name : string) (filter : list (string * string)) : list node :=
  List.filter (is_tag name filter) (descendants n).

(** [n.find(name, filter)], also [n.b], [n.a] *)
Definition find (n : node) (name : string) (filter : list (string * string)) : option node :=
  head (find_all n name filter).

(** [n.string]: the only child when it is a string, looked for through a
    chain of only children. *)
Fixpoint string_ (n : node) : option node :=
  match n with
  | Tag _ _ [c] => string_ c
  | Tag _ _ _ => None
  | NavigableString _ | Comment _ => Some n
  end.

(** [n.text]: the strings below [n] joined; comments are left out. *)
Fixpoint text (n : node) : string :=
  match n with
  | Tag _ _ cs => fold_right (fun c acc => String.append (text c) acc) EmptyString cs
  | NavigableString s => s
  | Comment _ => EmptyString
  end.

End Soup.

(** ** Operations on objects of either kind *)

(** [x == s] for a string literal [s]. *)
Definition py_eq_str (x : pyobj) (s : string) : bool :=
  match x with
  | PyNode (NavigableString t) | PyNode (Comment t) | PyVal (PStr t) => String.eqb t s
  | _ => false
  end.

(** [int(x)] *)
Definition py_int (x : pyobj) : result Z :=
  match x with
  | PyNode (NavigableString s) | PyNode (Comment s) | PyVal (PStr s) => Str.to_int s
  | PyVal (PInt z) => Ret z
  | PyVal (PBool b) => Ret (if b then 1 else 0)
  | PyNode (Tag _ _ _) | PyVal PNone | PyVal (PList _) | PyVal (PDict _) => Raise TypeError
  end.

(** ** Record types

    Both classes of the module have a field [_id]; it is [u_id] in an upload
    and [j_id] in a job. *)

Record ParsedUpload : Type := mkUpload {
  name : pyobj;
  u_id : pyobj;
  folderId : Z;
  spdxTvUrl : pyobj;
  spdxXmlUrl : pyobj
}.

(** [ParsedUpload()] *)
Definition ParsedUpload_init : ParsedUpload :=
  {| name := PyVal (PStr ""); u_id := PyVal (PInt (-1)); folderId := -1;
     spdxTvUrl := PyVal (PStr ""); spdxXmlUrl := PyVal (PStr "") |}.

Record ParsedJob : Type := mkJob {
  j_id : Z;
  status : pyobj;
  agent : pyobj;
  reportId : Z
}.

(** [ParsedJob()] *)
Definition ParsedJob_init : ParsedJob :=
  {| j_id := -1; status := PyVal (PStr ""); agent := PyVal (PStr ""); reportId := -1 |}.

Definition set_name (v : pyobj) (u : ParsedUpload) : ParsedUpload :=
  mkUpload v (u_id u) (folderId u) (spdxTvUrl u) (spdxXmlUrl u).
Definition set_u_id (v : pyobj) (u : ParsedUpload) : ParsedUpload :=
  mkUpload (name u) v (folderId u) (spdxTvUrl u) (spdxXmlUrl u).
Definition set_spdxTvUrl (v : pyobj) (u : ParsedUpload) : ParsedUpload :=
  mkUpload (name u) (u_id u) (folderId u) v (spdxXmlUrl u).
Definition set_spdxXmlUrl (v : pyobj) (u : ParsedUpload) : ParsedUpload :=
  mkUpload (name u) (u_id u) (folderId u) (spdxTvUrl u) v.

Definition set_j_id (v : Z) (j : ParsedJob) : ParsedJob :=
  mkJob v (status j) (agent j) (reportId j).
Definition set_status (v : pyobj) (j : ParsedJob) : ParsedJob :=
  mkJob (j_id j) v (agent j) (reportId j).
Definition set_agent (v : pyobj) (j : ParsedJob) : ParsedJob :=
  mkJob (j_id j) (status j) v (reportId j).
Definition set_reportId (v : Z) (j : ParsedJob) : ParsedJob :=
  mkJob (j_id j) (status j) (agent j) v.

Definition opt_str (o : option string) : pyobj :=
  match o with
  | Some s => PyVal (PStr s)
  | None => PyVal PNone
  end.

Definition opt_node (o : option node) : pyobj :=
  match o with
  | Some n => PyNode n
  | None => PyVal PNone
  end.

(** ** Control flow: the two loop shapes of the module *)

(** [for x in xs: ... continue ... acc.append(b)]: the body yields [None]
    for a skipped element; an exception leaves the loop. *)
Fixpoint for_append {A B} (body : A -> result (option B)) (xs : list A)
    (acc : list B) : result (list B) :=
  match xs with
  | [] => Ret acc
  | x :: rest =>
      o ← body x;
      match o with
      | Some b => for_append body rest (acc ++ [b])
      | None => for_append body rest acc
      end
  end.

(** [for x in xs: ... return r]: the body yields [Some r] to return [r]
    and [None] to go on. *)
Fixpoint for_return {A R} (body : A -> result (option R)) (xs : list A)
    : result (option R) :=
  match xs with
  | [] => Ret None
  | x :: rest =>
      o ← body x;
      match o with
      | Some r => Ret (Some r)
      | None => for_return body rest
      end
  end.

(** [xs[i]] on a list of nodes. *)
Definition item (xs : list node) (i : nat) : result node :=
  match xs !! i with
  | Some x => Ret x
  | None => Raise IndexError
  end.

(** Reading an attribute or calling a method of [x]: [None] has none. *)
Definition attr_of {A} (x : option A) : result A :=
  match x with
  | Some a => Ret a
  | None => Raise AttributeError
  end.

(** ** Logging and [try ... except Exception] *)

Inductive log_record : Type :=
| LogWarning (text : string) (cause : exn).

Definition try_except {A} (body : result A) (handler : exn -> A * list log_record)
    : result A * list log_record :=
  match body with
  | Ret a => (Ret a, [])
  | Raise e => let '(a, logged) := handler e in (Ret a, logged)
  end.

(** ** Sample responses

    Markup and JSON texts in the shape the server sends, each with the tree
    or value its reader yields: lxml wraps a fragment in [html] and [body],
    keeps the attribute order and decodes [&amp;]. *)

Module Fixture.

Definition page (body : list node) : list node :=
  [Tag "html" [] [Tag "body" [] body]].

Definition no_bold : string := "<i>pkg</i>".
Definition bold : string := "<b>pkg</b>".
Definition folders : string :=
  "<select name='folder'><option value='5'>Engineering</option></select>".
Definition folders_padded : string :=
  "<select name='folder'><option value='6'> Engineering </option></select>".
Definition upload_link : string :=
  "<p><a name='top'>up</a><a href='x?upload=42'>new</a></p>".
Definition upload_link_more : string :=
  "<a href='x?upload=42&amp;foo=1'>new</a>".
Definition no_link : string := "<p><a href='index.html'>home</a></p>".
Definition token_form : string :=
  "<form><input name='uploadformbuild' value='tok123'></form>".
Definition job_link : string := "<a href='#'>12</a>".
Definition pending : string := "pending".

Definition cells : string :=
  "<td><a href='#'>12</a></td><td>Completed</td><td>spdx2</td><td></td>"
  ++ "<td></td><td></td><td></td><td><a href='dl?report=99'>get</a></td>".
Definition seven_cells : string :=
  "<td></td><td></td><td></td><td></td><td></td><td></td><td></td>".
Definition jobs : string :=
  "<table><tr>" ++ cells ++ "</tr><tr class='x'>" ++ seven_cells
  ++ "</tr><tr class='x'>" ++ cells ++ "</tr></table>".

Definition td (contents : list node) : node := Tag "td" [] contents.
Definition cells_tree : list node :=
  [td [Tag "a" [("href", "#")] [NavigableString "12"]];
   td [NavigableString "Completed"];
   td [NavigableString "spdx2"];
   td []; td []; td []; td [];
   td [Tag "a" [("href", "dl?report=99")] [NavigableString "get"]]].
Definition header_row : node := Tag "tr" [] cells_tree.
Definition short_row : node :=
  Tag "tr" [("class", "x")] [td []; td []; td []; td []; td []; td []; td []].
Definition data_row : node := Tag "tr" [("class", "x")] cells_tree.

Definition table_job : ParsedJob :=
  mkJob 12 (PyNode (NavigableString "Completed")) (PyNode (NavigableString "spdx2")) 99.
Definition single_job : ParsedJob :=
  mkJob 12 (PyVal (PStr "Completed")) (PyVal (PStr "spdx2")) 99.

Definition lxml (markup : string) : list node :=
  if String.eqb markup no_bold then
    page [Tag "i" [] [NavigableString "pkg"]]
  else if String.eqb markup bold then
    page [Tag "b" [] [NavigableString "pkg"]]
  else if String.eqb markup folders then
    page [Tag "select" [("name", "folder")]
            [Tag "option" [("value", "5")] [NavigableString "Engineering"]]]
  else if String.eqb markup folders_padded then
    page [Tag "select" [("name", "folder")]
            [Tag "option" [("value", "6")] [NavigableString " Engineering "]]]
  else if String.eqb markup upload_link then
    page [Tag "p" []
            [Tag "a" [("name", "top")] [NavigableString "up"];
             Tag "a" [("href", "x?upload=42")] [NavigableString "new"]]]
  else if String.eqb markup upload_link_more then
    page [Tag "a" [("href", "x?upload=42&foo=1")] [NavigableString "new"]]
  else if String.eqb markup no_link then
    page [Tag "p" [] [Tag "a" [("href", "index.html")] [NavigableString "home"]]]
  else if String.eqb markup token_form then
    page [Tag "form" []
            [Tag "input" [("name", "uploadformbuild"); ("value", "tok123")] []]]
  else if String.eqb markup job_link then
    page [Tag "a" [("href", "#")] [NavigableString "12"]]
  else if String.eqb markup pending then
    page [Tag "p" [] [NavigableString "pending"]]
  else if String.eqb markup jobs then
    page [Tag "table" [] [header_row; short_row; data_row]]
  else [].

(** A line item of the folder listing: markup, a cell that is not read,
    and the cell whose first element is the upload id. *)
Definition line_item (markup : string) (id : Z) : pyval :=
  PList [PStr markup; PStr ""; PList [PInt id]].

Definition listing : list pyval := [line_item bold 7; line_item bold 8].
Definition upload (id : Z) : ParsedUpload :=
  {| name := PyNode (NavigableString "pkg"); u_id := PyVal (PInt id);
     folderId := -1; spdxTvUrl := PyVal (PStr ""); spdxXmlUrl := PyVal (PStr "") |}.

Definition dq : string := String (ascii_of_nat 34) EmptyString.
Definition quoted (s : string) : string := dq ++ s ++ dq.
Definition row (value : string) : string :=
  "{" ++ quoted "1" ++ ": " ++ quoted value ++ "}".

Definition empty_object : string := "{}".
Definition one_row : string := "{" ++ quoted "aaData" ++ ": [" ++ row job_link ++ "]}".
Definition no_rows : string := "{" ++ quoted "aaData" ++ ": []}".
Definition pending_row : string := "{" ++ quoted "aaData" ++ ": [" ++ row pending ++ "]}".
Definition job_table : string :=
  "{" ++ quoted "aaData" ++ ": [" ++ row job_link ++ ", " ++ row "99" ++ ", {}, "
  ++ row "spdx2" ++ ", {}, {}, {}, {}, {}, {}, {}, "
  ++ row "Completed<br>Scheduled" ++ "]}".

Definition field (value : string) : pyval := PDict [("1", PStr value)].

Definition json_loads (content : string) : result pyval :=
  if String.eqb content empty_object then Ret (PDict [])
  else if String.eqb content no_rows then Ret (PDict [("aaData", PList [])])
  else if String.eqb content pending_row then Ret (PDict [("aaData", PList [field pending])])
  else if String.eqb content one_row then Ret (PDict [("aaData", PList [field job_link])])
  else if String.eqb content job_table then
    Ret (PDict [("aaData",
                 PList [field job_link; field "99"; PDict []; field "spdx2";
                        PDict []; PDict []; PDict []; PDict []; PDict [];
                        PDict []; PDict []; field "Completed<br>Scheduled"])])
  else Raise JSONDecodeError.

End Fixture.

(** ** The extractors *)

Section Parser.

(** The top-level nodes lxml builds for a markup string. *)
Variable lxml : string -> list node.

(** [json.loads] *)
Variable json_loads : string -> result pyval.

(** [bs4.BeautifulSoup(markup, "lxml")] on a string. *)
Definition BeautifulSoup (markup : string) : node :=
  Tag "[document]" [] (lxml markup).

(** The same call on a value that need not be a string: bs4 takes the
    length of a value without one and fails, and fails on a missing method
    when handed a list or a dict. *)
Definition BeautifulSoup_of (markup : pyval) : result node :=
  match markup with
  | PStr s => Ret (BeautifulSoup s)
  | PNone | PBool _ | PInt _ => Raise TypeError
  | PList _ | PDict _ => Raise AttributeError
  end.

Definition parseUploadDataForFolderLineItem (lineItem : pyval) : result ParsedUpload :=
  let u := ParsedUpload_init in
  cell0 ← py_index lineItem 0;
  soup ← BeautifulSoup_of cell0;
  let boldTag := Soup.find soup "b" [] in
  b ← attr_of boldTag;
  let u := set_name (opt_node (Soup.string_ b)) u in
  let opt := Soup.find soup "option" [("title", "Generate SPDX report")] in
  let u := match opt with
           | Some o => set_spdxXmlUrl (opt_str (Soup.get o "value")) u
           | None => u
           end in
  let opt := Soup.find soup "option"
               [("title", "Generate SPDX report in tag:value format")] in
  let u := match opt with
           | Some o => set_spdxTvUrl (opt_str (Soup.get o "value")) u
           | None => u
           end in
  cell2 ← py_index lineItem 2;
  i ← py_index cell2 0;
  Ret (set_u_id (PyVal i) u).

(** The line-item extractor always hands back an object, so the test
    [u is not None] of the loop passes for every line item that returns. *)
Definition parseAllUploadDataForFolder (uploadData : list pyval)
    : result (list ParsedUpload) :=
  for_append
    (fun lineItem => u ← parseUploadDataForFolderLineItem lineItem; Ret (Some u))
    uploadData [].

Definition parseUploadFormBuildToken (content : string)
    : result (option string) * list log_record :=
  let soup := BeautifulSoup content in
  try_except
    (input ← attr_of (Soup.find soup "input" [("name", "uploadformbuild")]);
     Ret (Soup.get input "value"))
    (fun e => (None, [LogWarning "Couldn't extract uploadformbuild token: " e])).

Definition parseFolderNumber (content folderName : string) : result (option string) :=
  let soup := BeautifulSoup content in
  let folders := Soup.find_all soup "select" [("name", "folder")] in
  for_return
    (fun folder =>
       for_return
         (fun option =>
            if String.eqb (Str.strip (Soup.text option)) folderName
            then v ← Soup.getitem option "value"; Ret (Some v)
            else Ret None)
         (Soup.find_all folder "option" []))
    folders.

Definition parseAnchorTagsForNewUploadNumber (content : string) : result Z :=
  let soup := BeautifulSoup content in
  let anchors := Soup.find_all soup "a" [] in
  found ← for_return
    (fun anchor =>
       match Soup.get anchor "href" with
       | None => Ret None
       | Some href =>
           if Str.contains "upload=" href
           then
             let p := Str.partition href "upload=" in
             n ← Str.to_int (snd p); Ret (Some n)
           else Ret None
       end)
    anchors;
  match found with
  | Some n => Ret n
  | None => Ret (-1)
  end.

(** One turn of the loop of [parseDecodedAjaxShowJobsData]; [None] stands
    for [continue]. *)
Definition jobOfRow (row : node) : result (option ParsedJob) :=
  match Soup.get row "class" with
  | None => Ret None
  | Some _ =>
      let job := ParsedJob_init in
      let cols := Soup.find_all row "td" [] in
      if (length cols <? 8)%nat then Ret None
      else
        col0 ← item cols 0;
        a ← attr_of (Soup.find col0 "a" []);
        first ← item (Soup.contents a) 0;
        n ← py_int (PyNode first);
        let job := set_j_id n job in
        col1 ← item cols 1;
        job ← match Soup.contents col1 with
              | [] => Ret (set_status (PyVal (PStr "Not started")) job)
              | _ :: _ =>
                  x ← item (Soup.contents col1) 0; Ret (set_status (PyNode x) job)
              end;
        col2 ← item cols 2;
        ag ← item (Soup.contents col2) 0;
        let job := set_agent (PyNode ag) job in
        job ← (if py_eq_str (status job) "Completed"
               then
                 col7 ← item cols 7;
                 match Soup.find col7 "a" [] with
                 | Some aLink =>
                     href ← attr_of (Soup.get aLink "href");
                     let p := Str.partition href "report=" in
                     r ← Str.to_int (snd p);
                     Ret (set_reportId r job)
                 | None => Ret job
                 end
               else Ret job);
        Ret (Some job)
  end.

Definition parseDecodedAjaxShowJobsData (content : string) : result (list ParsedJob) :=
  let soup := BeautifulSoup content in
  let rows := Soup.find_all soup "tr" [] in
  for_append jobOfRow rows [].

Definition parseSingleJobData (content : string) : result (option ParsedJob) :=
  rj ← json_loads content;
  jobArr ← py_get rj "aaData" PNone;
  match jobArr with
  | PNone => Ret None
  | _ =>
      let job := ParsedJob_init in
      jobIdRow ← py_index jobArr 0;
      jobIdString ← py_get jobIdRow "1" PNone;
      job ← match jobIdRow with
            | PNone => Ret job
            | _ =>
                soup ← BeautifulSoup_of jobIdString;
                aLink ← attr_of (Soup.find soup "a" []);
                match Soup.contents aLink with
                | [] => Ret job
                | _ :: _ =>
                    x ← item (Soup.contents aLink) 0;
                    n ← py_int (PyNode x);
                    Ret (set_j_id n job)
                end
            end;
      jobAgentRow ← py_index jobArr 3;
      ag ← py_get jobAgentRow "1" (PStr "");
      let job := set_agent (PyVal ag) job in
      jobStatusRow ← py_index jobArr 11;
      statusLines ← py_get jobStatusRow "1" (PStr "");
      job ← match statusLines with
            | PNone => Ret job
            | PStr s =>
                let p := Str.partition s "<br>" in
                Ret (set_status (PyVal (PStr (fst (fst p)))) job)
            | PBool _ | PInt _ | PList _ | PDict _ => Raise AttributeError
            end;
      jobReportIdRow ← py_index jobArr 1;
      jobReportIdString ← py_get jobReportIdRow "1" PNone;
      job ← (if (py_eq_str (agent job) "spdx2tv" || py_eq_str (agent job) "spdx2")
                && py_eq_str (status job) "Completed"
             then r ← py_int (PyVal jobReportIdString); Ret (set_reportId r job)
             else Ret job);
      Ret (Some job)
  end.

End Parser.

(** ** Vocabulary of the statements *)

(** An anchor the upload-number scan stops at: its [href] holds [upload=]. *)
Definition upload_href (anchor : node) : bool :=
  match Soup.get anchor "href" with
  | Some href => Str.contains "upload=" href
  | None => false
  end.

(** The options the folder lookup visits, in the order it visits them. *)
Definition folder_options (soup : node) : list node :=
  flat_map (fun folder => Soup.find_all folder "option" [])
    (Soup.find_all soup "select" [("name", "folder")]).

(** A row of the job table that carries a job: it has a [class] attribute
    and at least eight cells. *)
Definition dataRow (row : node) : bool :=
  match Soup.get row "class" with
  | Some _ => (8 <=? length (Soup.find_all row "td" []))%nat
  | None => false
  end.

(** A data row of eight cells: job id [n] in the anchor of cell 0, status
    [st] equal to "Completed" in cell 1, agent [ag] in cell 2, and in cell 7
    an anchor whose [href] reads [99] after its [report=] marker. *)
Definition completed_row_99 (row : node) (n : Z) (st ag : node) : Prop :=
  exists cl c0 c1 c2 c3 c4 c5 c6 c7 a0 x rest0 rest1 rest2 aLink href pre,
    Soup.get row "class" = Some cl /\
    Soup.find_all row "td" [] = [c0; c1; c2; c3; c4; c5; c6; c7] /\
    Soup.find c0 "a" [] = Some a0 /\
    Soup.contents a0 = x :: rest0 /\
    py_int (PyNode x) = Ret n /\
    Soup.contents c1 = st :: rest1 /\
    py_eq_str (PyNode st) "Completed" = true /\
    Soup.contents c2 = ag :: rest2 /\
    Soup.find c7 "a" [] = Some aLink /\
    Soup.get aLink "href" = Some href /\
    Str.find "report=" href = Some (pre, "99").

(** Row 0 of the single-job table from which a job id can be read: an
    object whose entry "1" is markup with an anchor that is empty or starts
    with text [int] accepts. *)
Definition jobId_readable (lxml : string -> list node) (row0 : pyval) : Prop :=
  exists entries markup aLink,
    row0 = PDict entries /\
    lookup_key "1" entries = Some (PStr markup) /\
    Soup.find (BeautifulSoup lxml markup) "a" [] = Some aLink /\
    (Soup.contents aLink = [] \/
     exists x rest, Soup.contents aLink = x :: rest /\ returns (py_int (PyNode x))).

Definition is_dict (v : pyval) : Prop := exists entries, v = PDict entries.

(** ** The ajax envelope *)

(** [v[key]] for a string key: only a [dict] can be indexed by one. *)
Definition py_getitem_str (v : pyval) (key : string) : result pyval :=
  match v with
  | PDict entries =>
      match lookup_key key entries with
      | Some x => Ret x
      | None => Raise KeyError
      end
  | PNone | PBool _ | PInt _ | PStr _ | PList _ => Raise TypeError
  end.

(** The UTF-8 bytes of a character: itself below 128, two bytes from there. *)
Definition utf8_char (c : ascii) : string :=
  let n := N_of_ascii c in
  if (n <? 128)%N then String c EmptyString
  else String (ascii_of_N (192 + n / 64))
         (String (ascii_of_N (128 + n mod 64)) EmptyString).

Fixpoint utf8_encode (s : string) : string :=
  match s with
  | String c s' => (utf8_char c ++ utf8_encode s')%string
  | EmptyString => EmptyString
  end.

(** [v.encode("utf-8")]: a method of [str] alone. *)
Definition py_encode_utf8 (v : pyval) : result string :=
  match v with
  | PStr s => Ret (utf8_encode s)
  | PNone | PBool _ | PInt _ | PList _ | PDict _ => Raise AttributeError
  end.

Section Envelope.

(** [json.loads] *)
Variable json_loads : string -> result pyval.

(** [bytes.decode("unicode-escape")], the codec of the standard library. *)
Variable unicode_escape : string -> result string.

Definition decodeAjaxShowJobsData (content : string) : result string :=
  rj ← json_loads content;
  s1 ← py_getitem_str rj "showJobsData";
  b1 ← py_encode_utf8 s1;
  s2 ← unicode_escape b1;
  Ret s2.

End Envelope.

(** ** Vocabulary of the further statements *)

(** The first and the last character of a string, as blanks. *)
Definition starts_blank (s : string) : bool :=
  match s with
  | String c _ => Str.isspace c
  | EmptyString => false
  end.

Fixpoint ends_blank (s : string) : bool :=
  match s with
  | String c EmptyString => Str.isspace c
  | String _ s' => ends_blank s'
  | EmptyString => false
  end.

(** Text whose characters are all below 128. *)
Fixpoint is_ascii (s : string) : bool :=
  match s with
  | String c s' => (N_of_ascii c <? 128)%N && is_ascii s'
  | EmptyString => true
  end.

(** A row of the job table that is read up to the link of cell 7: it has a
    class and eight cells or more, a job id in the anchor of cell 0, a
    status equal to "Completed", an agent, and in cell 7 an anchor whose
    [href] attribute is [href], or is missing. *)
Definition completed_row_link (row : node) (href : option string) : Prop :=
  exists cl c0 c1 c2 c7 a0 x n st ag aLink,
    Soup.get row "class" = Some cl /\
    (8 <= length (Soup.find_all row "td" []))%nat /\
    Soup.find_all row "td" [] !! 0%nat = Some c0 /\
    Soup.find_all row "td" [] !! 1%nat = Some c1 /\
    Soup.find_all row "td" [] !! 2%nat = Some c2 /\
    Soup.find_all row "td" [] !! 7%nat = Some c7 /\
    Soup.find c0 "a" [] = Some a0 /\
    Soup.contents a0 !! 0%nat = Some x /\
    py_int (PyNode x) = Ret n /\
    Soup.contents c1 !! 0%nat = Some st /\
    py_eq_str (PyNode st) "Completed" = true /\
    Soup.contents c2 !! 0%nat = Some ag /\
    Soup.find c7 "a" [] = Some aLink /\
    Soup.get aLink "href" = href.

(** The loop of the job-table extractor, run over a list of rows. *)
Definition jobsOfRows (rows : list node) : result (list ParsedJob) :=
  for_append jobOfRow rows [].

(** ** Further sample responses *)

Module Sample.

Definition upload_row : string :=
  "<b>pkg</b><select><option title='Generate SPDX report' value='?mod=spdx2&amp;upload=7'>"
  ++ "SPDX</option><option title='Generate SPDX report in tag:value format'>"
  ++ "SPDX tv</option></select>".
Definition upload_row_tree : list node :=
  Fixture.page
    [Tag "b" [] [NavigableString "pkg"];
     Tag "select" []
       [Tag "option" [("title", "Generate SPDX report"); ("value", "?mod=spdx2&upload=7")]
          [NavigableString "SPDX"];
        Tag "option" [("title", "Generate SPDX report in tag:value format")]
          [NavigableString "SPDX tv"]]].
Definition upload_record : ParsedUpload :=
  {| name := PyNode (NavigableString "pkg"); u_id := PyVal (PInt 7); folderId := -1;
     spdxTvUrl := PyVal PNone; spdxXmlUrl := PyVal (PStr "?mod=spdx2&upload=7") |}.

Definition folders_no_value : string :=
  "<select name='folder'><option>Engineering</option>"
  ++ "<option value='9'>Engineering</option></select>".
Definition folders_no_value_tree : list node :=
  Fixture.page
    [Tag "select" [("name", "folder")]
       [Tag "option" [] [NavigableString "Engineering"];
        Tag "option" [("value", "9")] [NavigableString "Engineering"]]].

(** Rows of the job table, as trees. *)
Definition cell_id : node :=
  Fixture.td [Tag "a" [("href", "#")] [NavigableString "12"]].
Definition cell (text : string) : node := Fixture.td [NavigableString text].
Definition empty : node := Fixture.td [].
Definition data_row (status link : node) : node :=
  Tag "tr" [("class", "x")]
    [cell_id; status; cell "nomos"; empty; empty; empty; empty; link].
Definition not_started_row : node :=
  data_row empty (Fixture.td [Tag "a" [("href", "dl?report=99")] [NavigableString "get"]]).
Definition no_link_row : node := data_row (cell "Completed") empty.
Definition no_href_row : node :=
  data_row (cell "Completed") (Fixture.td [Tag "a" [("name", "get")] [NavigableString "get"]]).
Definition no_marker_row : node :=
  data_row (cell "Completed")
    (Fixture.td [Tag "a" [("href", "dl?id=99")] [NavigableString "get"]]).
Definition no_id_row : node :=
  Tag "tr" [("class", "x")]
    [cell "12"; cell "Completed"; cell "nomos"; empty; empty; empty; empty; empty].

Definition jobs_no_id : string :=
  "<table><tr class='x'>" ++ Fixture.cells ++ "</tr><tr class='x'><td>12</td>"
  ++ "<td>Completed</td><td>nomos</td><td></td><td></td><td></td><td></td><td></td>"
  ++ "</tr></table>".

Definition lxml (markup : string) : list node :=
  if String.eqb markup upload_row then upload_row_tree
  else if String.eqb markup folders_no_value then folders_no_value_tree
  else if String.eqb markup jobs_no_id then
    Fixture.page [Tag "table" [] [Fixture.data_row; no_id_row]]
  else Fixture.lxml markup.

Definition null_table : string := "{" ++ Fixture.quoted "aaData" ++ ": null}".
Definition wide_job_table : string :=
  "{" ++ Fixture.quoted "aaData" ++ ": [" ++ Fixture.row Fixture.job_link ++ ", "
  ++ Fixture.row "99" ++ ", " ++ Fixture.row "skipped" ++ ", " ++ Fixture.row "spdx2"
  ++ ", {}, {}, {}, {}, {}, {}, {}, " ++ Fixture.row "Completed<br>Scheduled" ++ ", {}]}".
Definition job_rows : list pyval :=
  [Fixture.field Fixture.job_link; Fixture.field "99"; PDict []; Fixture.field "spdx2";
   PDict []; PDict []; PDict []; PDict []; PDict []; PDict []; PDict [];
   Fixture.field "Completed<br>Scheduled"].
Definition wide_job_rows : list pyval :=
  [Fixture.field Fixture.job_link; Fixture.field "99"; Fixture.field "skipped";
   Fixture.field "spdx2"; PDict []; PDict []; PDict []; PDict []; PDict []; PDict [];
   PDict []; Fixture.field "Completed<br>Scheduled"; PDict []].
Definition envelope : string :=
  "{" ++ Fixture.quoted "showJobsData" ++ ": " ++ Fixture.quoted "<table></table>" ++ "}".

Definition json_loads (content : string) : result pyval :=
  if String.eqb content null_table then Ret (PDict [("aaData", PNone)])
  else if String.eqb content wide_job_table then
    Ret (PDict [("aaData", PList wide_job_rows)])
  else if String.eqb content envelope then
    Ret (PDict [("showJobsData", PStr "<table></table>")])
  else Fixture.json_loads content.

(** The escape codec on bytes without a backslash, all below 128: the
    text they spell. *)
Definition unicode_escape (bytes : string) : result string :=
  if String.eqb bytes "<table></table>" then Ret bytes else Raise ValueError.

End Sample.

(** ** Samples that probe the edges *)

Module Probe.

Definition cells_990 : string :=
  "<td><a href='#'>12</a></td><td>Completed</td><td>spdx2</td><td></td>"
  ++ "<td></td><td></td><td></td><td><a href='dl?report=990'>get</a></td>".
Definition jobs_990 : string := "<table><tr class='x'>" ++ cells_990 ++ "</tr></table>".
Definition row_990 : node :=
  Tag "tr" [("class", "x")]
    [Fixture.td [Tag "a" [("href", "#")] [NavigableString "12"]];
     Fixture.td [NavigableString "Completed"];
     Fixture.td [NavigableString "spdx2"];
     Fixture.td []; Fixture.td []; Fixture.td []; Fixture.td [];
     Fixture.td [Tag "a" [("href", "dl?report=990")] [NavigableString "get"]]].
Definition job_990 : ParsedJob :=
  mkJob 12 (PyNode (NavigableString "Completed")) (PyNode (NavigableString "spdx2")) 990.

Definition cells_no_id : string :=
  "<td>12</td><td>Completed</td><td>spdx2</td><td></td>"
  ++ "<td></td><td></td><td></td><td><a href='dl?report=99'>get</a></td>".
Definition jobs_no_id : string :=
  "<table><tr class='x'>" ++ cells_no_id ++ "</tr></table>".
Definition row_no_id : node :=
  Tag "tr" [("class", "x")]
    [Fixture.td [NavigableString "12"];
     Fixture.td [NavigableString "Completed"];
     Fixture.td [NavigableString "spdx2"];
     Fixture.td []; Fixture.td []; Fixture.td []; Fixture.td [];
     Fixture.td [Tag "a" [("href", "dl?report=99")] [NavigableString "get"]]].

Definition token_no_value : string := "<form><input name='uploadformbuild'></form>".
Definition input_no_value : node := Tag "input" [("name", "uploadformbuild")] [].

Definition lxml (markup : string) : list node :=
  if String.eqb markup jobs_990 then Fixture.page [Tag "table" [] [row_990]]
  else if String.eqb markup jobs_no_id then Fixture.page [Tag "table" [] [row_no_id]]
  else if String.eqb markup token_no_value then
    Fixture.page [Tag "form" [] [input_no_value]]
  else Sample.lxml markup.

(** A listing whose second line item has no bold tag. *)
Definition listing : list pyval :=
  [Fixture.line_item Fixture.bold 7; Fixture.line_item Fixture.no_bold 8;
   Fixture.line_item Fixture.bold 9].

End Probe.

(** * Properties *)

Example strip_sample : Str.strip " Engineering " = "Engineering".
Proof. reflexivity. Qed.

Example partition_found :
  Str.partition "x?upload=42&foo=1" "upload=" = ("x?", "upload=", "42&foo=1").
Proof. reflexivity. Qed.

Example partition_missing : Str.partition "abc" "upload=" = ("abc", "", "").
Proof. reflexivity. Qed.

Example to_int_samples :
  Str.to_int "42" = Ret 42 /\ Str.to_int " -7 " = Ret (-7)
  /\ Str.to_int "42&foo=1" = Raise ValueError /\ Str.to_int "" = Raise ValueError
  /\ Str.to_int "1_0" = Ret 10 /\ Str.to_int "1__0" = Raise ValueError.
Proof. repeat split; reflexivity. Qed.

(** ** Strings *)

Ltac unfold_append := unfold String.append in *; fold String.append in *.

Lemma after_prefix_split (sep s rest : string) :
  Str.after_prefix sep s = Some rest -> s = (sep ++ rest)%string.
Proof.
  revert s. induction sep as [|a sep IH]; intros [|b s] H; simpl in H; try discriminate.
  - by injection H as <-.
  - by injection H as <-.
  - destruct (Ascii.eqb_spec a b) as [<-|]; [|discriminate].
    unfold_append. f_equal. by apply IH.
Qed.

(** [Str.find] cuts the string around an occurrence of the separator... *)
Lemma find_split (sep s before rest : string) :
  Str.find sep s = Some (before, rest) -> s = (before ++ sep ++ rest)%string.
Proof.
  revert before. induction s as [|c s IH]; intros before H; simpl in H.
  - destruct (Str.after_prefix sep "") eqn:Hp; [|discriminate].
    injection H as <- <-. apply after_prefix_split in Hp. by unfold_append.
  - destruct (Str.after_prefix sep (String c s)) eqn:Hp.
    + injection H as <- <-. apply after_prefix_split in Hp. by unfold_append.
    + destruct (Str.find sep s) as [[b r]|]; [|discriminate].
      injection H as <- <-. unfold_append. f_equal. by apply IH.
Qed.

Lemma after_prefix_self (sep rest : string) :
  Str.after_prefix sep (sep ++ rest)%string = Some rest.
Proof.
  induction sep as [|a sep IH]; unfold_append; simpl; [by destruct rest|].
  by rewrite Ascii.eqb_refl.
Qed.

(** ... and that occurrence is the first: no shorter cut is possible. *)
Lemma find_first (sep s before rest before' rest' : string) :
  Str.find sep s = Some (before, rest) ->
  s = (before' ++ sep ++ rest')%string ->
  (String.length before <= String.length before')%nat.
Proof.
  revert before before'. induction s as [|c s IH]; intros before before' H Hs.
  - simpl in H. destruct (Str.after_prefix sep ""); [|discriminate].
    injection H as <- <-. simpl. lia.
  - simpl in H. destruct (Str.after_prefix sep (String c s)) eqn:Hp.
    + injection H as <- <-. simpl. lia.
    + destruct (Str.find sep s) as [[b r]|] eqn:Hf; [|discriminate].
      injection H as <- <-. destruct before' as [|c' before'].
      * exfalso. unfold_append. rewrite Hs, after_prefix_self in Hp. discriminate.
      * unfold_append. injection Hs as -> Hs. simpl.
        specialize (IH b before' eq_refl Hs). lia.
Qed.

Lemma partition_spec (s sep : string) :
  Str.contains sep s = true ->
  exists before rest,
    Str.partition s sep = (before, sep, rest) /\ s = (before ++ sep ++ rest)%string.
Proof.
  unfold Str.contains, Str.partition.
  destruct (Str.find sep s) as [[before rest]|] eqn:H; [|discriminate].
  intros _. exists before, rest. split; [done|]. by apply find_split.
Qed.

(** ** The result monad and the loops *)

Lemma bind_Ret {A B} (m : result A) (f : A -> result B) (b : B) :
  m ≫= f = Ret b -> exists a, m = Ret a /\ f a = Ret b.
Proof. destruct m as [a|e]; simpl; [eauto | discriminate]. Qed.

Lemma bind_Raise {A B} (f : A -> result B) (e : exn) : Raise e ≫= f = Raise e.
Proof. reflexivity. Qed.

Lemma bind_of_Ret {A B} (f : A -> result B) (a : A) : Ret a ≫= f = f a.
Proof. reflexivity. Qed.

(** A loop that returns has run its body on every element, in order, and
    appended exactly the records the body produced. *)
Lemma for_append_Ret {A B} (body : A -> result (option B)) xs :
  forall acc out,
    for_append body xs acc = Ret out ->
    exists os, Forall2 (fun x o => body x = Ret o) xs os /\ out = acc ++ omap id os.
Proof.
  induction xs as [|x rest IH]; intros acc out H; simpl in H.
  - exists []. split; [constructor|]. simpl. rewrite app_nil_r. congruence.
  - apply bind_Ret in H as (o & Hx & H).
    destruct o as [b|]; apply IH in H as (os & Hos & ->).
    + exists (Some b :: os). split; [by constructor|]. simpl. by rewrite <- app_assoc.
    + exists (None :: os). split; [by constructor|]. done.
Qed.

(** Conversely the loop returns as soon as every turn of the body does. *)
Lemma for_append_total {A B} (body : A -> result (option B)) xs :
  forall acc os,
    Forall2 (fun x o => body x = Ret o) xs os ->
    for_append body xs acc = Ret (acc ++ omap id os).
Proof.
  induction xs as [|x rest IH]; intros acc os H; inversion H as [|? o ? os' Hx Hrest]; subst.
  - simpl. by rewrite app_nil_r.
  - simpl. rewrite Hx. simpl. destruct o as [b|]; rewrite (IH _ _ Hrest); simpl.
    + by rewrite <- app_assoc.
    + reflexivity.
Qed.

Lemma omap_id_length {B} (os : list (option B)) : (length (omap id os) <= length os)%nat.
Proof. induction os as [|[b|] os IH]; cbn in *; lia. Qed.

(** The loop with an early return stops at the first element whose body
    returns a value, provided the turns before it went on without one. *)
Lemma for_return_first {A R} (body : A -> result (option R)) before x after :
  Forall (fun y => body y = Ret None) before ->
  for_return body (before ++ x :: after)
  = (o ← body x; match o with Some r => Ret (Some r) | None => for_return body after end).
Proof.
  induction 1 as [|y before Hy _ IH]; simpl; [done|]. by rewrite Hy.
Qed.

Lemma for_return_none {A R} (body : A -> result (option R)) xs :
  Forall (fun y => body y = Ret None) xs -> for_return body xs = Ret None.
Proof. induction 1 as [|y ys Hy _ IH]; simpl; [done|]. by rewrite Hy. Qed.


Lemma for_return_app {A R} (body : A -> result (option R)) xs ys :
  for_return body (xs ++ ys)
  = (o ← for_return body xs;
     match o with Some r => Ret (Some r) | None => for_return body ys end).
Proof.
  induction xs as [|x xs IH]; simpl; [done|].
  destruct (body x) as [[r|]|e]; simpl; done.
Qed.

(** Two nested loops with an early return visit the inner elements in one
    sequence. *)
Lemma for_return_nested {A B R} (inner : A -> list B) (body : B -> result (option R)) xs :
  for_return (fun x => for_return body (inner x)) xs
  = for_return body (flat_map inner xs).
Proof.
  induction xs as [|x xs IH]; simpl; [done|].
  rewrite for_return_app. destruct (for_return body (inner x)) as [[r|]|e]; simpl; done.
Qed.

(** ** Properties of the extractors *)

Ltac bind_step H :=
  let x := fresh "x" in
  let Hx := fresh "Hx" in
  cbv beta zeta in H; apply bind_Ret in H as (x & Hx & H); cbv beta zeta in H.

Arguments py_int : simpl never.
Arguments py_eq_str : simpl never.
Arguments Str.to_int : simpl never.
Arguments Str.partition : simpl never.
Arguments Str.contains : simpl never.
Arguments Str.strip : simpl never.
Arguments Soup.find : simpl never.
Arguments Soup.find_all : simpl never.
Arguments Soup.get : simpl never.
Arguments Soup.text : simpl never.
Arguments BeautifulSoup : simpl never.

Section Properties.

Variable lxml : string -> list node.
Variable json_loads : string -> result pyval.

(** *** Upload listing *)

(** C1 (as amended).  A line item whose cell 0 is markup without a bold tag
    yields no record at all: reading the text of the missing tag raises an
    attribute error, and nothing in the extractor catches it. *)
Theorem lineItem_without_bold_raises (lineItem : pyval) (markup : string) :
  py_index lineItem 0 = Ret (PStr markup) ->
  Soup.find (BeautifulSoup lxml markup) "b" [] = None ->
  parseUploadDataForFolderLineItem lxml lineItem = Raise AttributeError.
Proof.
  intros Hcell Hbold. unfold parseUploadDataForFolderLineItem.
  rewrite Hcell. simpl. rewrite Hbold. reflexivity.
Qed.

(** With a bold tag the extractor goes on to the id cell; the name is then
    the tag's string, so it is the bold tag alone that decides between the
    two outcomes. *)
Lemma lineItem_with_bold_name (lineItem : pyval) (markup : string) (b : node) (u : ParsedUpload) :
  py_index lineItem 0 = Ret (PStr markup) ->
  Soup.find (BeautifulSoup lxml markup) "b" [] = Some b ->
  parseUploadDataForFolderLineItem lxml lineItem = Ret u ->
  name u = opt_node (Soup.string_ b).
Proof.
  intros Hcell Hbold. unfold parseUploadDataForFolderLineItem.
  rewrite Hcell. simpl. rewrite Hbold. simpl. intros H.
  apply bind_Ret in H as (cell2 & _ & H).
  apply bind_Ret in H as (i & _ & H).
  injection H as <-. simpl.
  do 2 (match goal with |- context [match ?o with Some _ => _ | None => _ end] =>
          destruct o end); reflexivity.
Qed.

Lemma parseAll_rows (uploadData : list pyval) (us : list ParsedUpload) :
  parseAllUploadDataForFolder lxml uploadData = Ret us ->
  Forall2 (fun lineItem u => parseUploadDataForFolderLineItem lxml lineItem = Ret u)
    uploadData us.
Proof.
  unfold parseAllUploadDataForFolder. intros H.
  apply for_append_Ret in H as (os & Hos & ->). simpl.
  induction Hos as [|lineItem o rest os Hrow _ IH]; [constructor|].
  apply bind_Ret in Hrow as (u & Hu & Ho). injection Ho as <-.
  cbn. by constructor.
Qed.


(** The listing is returned whenever each line item can be extracted. *)
Lemma parseAll_returns (uploadData : list pyval) :
  Forall (fun lineItem => returns (parseUploadDataForFolderLineItem lxml lineItem)) uploadData ->
  returns (parseAllUploadDataForFolder lxml uploadData).
Proof.
  intros H. unfold parseAllUploadDataForFolder.
  assert (exists os, Forall2 (fun x o =>
            (u ← parseUploadDataForFolderLineItem lxml x; Ret (Some u)) = Ret o)
            uploadData os) as [os Hos].
  { induction H as [|x xs [u Hu] _ [os IH]]; [exists []; constructor|].
    exists (Some u :: os). constructor; [by rewrite Hu | exact IH]. }
  eexists. by apply for_append_total.
Qed.

(** A line item that raises takes the whole listing with it: the loop
    leaves out only what the extractor hands back as [None]. *)
Lemma parseAll_raises (before after : list pyval) (lineItem : pyval) (e : exn) :
  Forall (fun x => returns (parseUploadDataForFolderLineItem lxml x)) before ->
  parseUploadDataForFolderLineItem lxml lineItem = Raise e ->
  parseAllUploadDataForFolder lxml (before ++ lineItem :: after) = Raise e.
Proof.
  unfold parseAllUploadDataForFolder. generalize (@nil ParsedUpload).
  intros acc H; revert acc.
  induction H as [|x xs [u Hu] _ IH]; intros acc Hraise; simpl.
  - by rewrite Hraise.
  - rewrite Hu. simpl. by apply IH.
Qed.

(** *** Form token *)

(** C6 (as amended).  The form-token lookup returns on every input.
    Without an input element named [uploadformbuild] it returns the absent
    value and logs one warning; with one it returns what the [value]
    attribute of the first such element holds and logs nothing, also when
    the element has no [value] and the absent value is what it returns. *)
Theorem formBuildToken_never_raises (content : string) :
  (exists v, fst (parseUploadFormBuildToken lxml content) = Ret v) /\
  match Soup.find (BeautifulSoup lxml content) "input" [("name", "uploadformbuild")] with
  | None =>
      parseUploadFormBuildToken lxml content
      = (Ret None, [LogWarning "Couldn't extract uploadformbuild token: " AttributeError])
  | Some input =>
      parseUploadFormBuildToken lxml content = (Ret (Soup.get input "value"), [])
  end.
Proof.
  unfold parseUploadFormBuildToken.
  destruct (Soup.find _ "input" _) as [input|]; simpl; eauto.
Qed.

(** *** Single job, from the JSON table *)

(** C4.  When the decoded object has no [aaData] entry the single-job
    extractor returns the absent value: no error, no record. *)
Theorem singleJob_without_aaData (content : string) (entries : list (string * pyval)) :
  json_loads content = Ret (PDict entries) ->
  lookup_key "aaData" entries = None ->
  parseSingleJobData lxml json_loads content = Ret None.
Proof.
  intros Hjson Hkey. unfold parseSingleJobData.
  rewrite Hjson. simpl. rewrite Hkey. reflexivity.
Qed.

Lemma py_get_dict v key d x : py_get v key d = Ret x -> exists entries, v = PDict entries.
Proof. destruct v; simpl; try discriminate; eauto. Qed.

Lemma singleJob_reads_status_row (content : string) (entries : list (string * pyval))
    (jobArr : pyval) (o : option ParsedJob) :
  json_loads content = Ret (PDict entries) ->
  lookup_key "aaData" entries = Some jobArr ->
  jobArr <> PNone ->
  parseSingleJobData lxml json_loads content = Ret o ->
  returns (py_index jobArr 11).
Proof.
  intros Hjson Hkey Hnone. unfold parseSingleJobData.
  rewrite Hjson. simpl. rewrite Hkey. rewrite bind_of_Ret.
  intros H.
  destruct jobArr; [done|..];
    do 6 bind_step H; eexists; eassumption.
Qed.


(** C9 (as amended).  When [aaData] is a list of fewer than twelve rows the
    single-job extractor never returns: an error reaches the caller.  It is
    the out-of-range error when the list is empty, and when the rows that
    are there can be read (row 0 yields a job id, row 3 if present is an
    object).  A row that cannot be read raises its own error first: the
    attribute error when row 0 or row 3 is not an object and when the
    markup of row 0 has no anchor, the error of the markup reader when the
    entry "1" of row 0 is not markup, the error of [int] when the anchor
    does not start with an integer. *)
Theorem singleJob_short_table_raises (content : string)
    (entries : list (string * pyval)) (rows : list pyval) :
  json_loads content = Ret (PDict entries) ->
  lookup_key "aaData" entries = Some (PList rows) ->
  (length rows < 12)%nat ->
  raises (parseSingleJobData lxml json_loads content) /\
  (rows = [] -> parseSingleJobData lxml json_loads content = Raise IndexError) /\
  (forall row0, rows !! 0%nat = Some row0 -> jobId_readable lxml row0 ->
     (forall row3, rows !! 3%nat = Some row3 -> is_dict row3) ->
     parseSingleJobData lxml json_loads content = Raise IndexError) /\
  (forall row0, rows !! 0%nat = Some row0 -> ~ is_dict row0 ->
     parseSingleJobData lxml json_loads content = Raise AttributeError) /\
  (forall e0 e, rows !! 0%nat = Some (PDict e0) ->
     BeautifulSoup_of lxml (default PNone (lookup_key "1" e0)) = Raise e ->
     parseSingleJobData lxml json_loads content = Raise e) /\
  (forall e0 markup, rows !! 0%nat = Some (PDict e0) ->
     lookup_key "1" e0 = Some (PStr markup) ->
     Soup.find (BeautifulSoup lxml markup) "a" [] = None ->
     parseSingleJobData lxml json_loads content = Raise AttributeError) /\
  (forall e0 markup aLink x rest e, rows !! 0%nat = Some (PDict e0) ->
     lookup_key "1" e0 = Some (PStr markup) ->
     Soup.find (BeautifulSoup lxml markup) "a" [] = Some aLink ->
     Soup.contents aLink = x :: rest ->
     py_int (PyNode x) = Raise e ->
     parseSingleJobData lxml json_loads content = Raise e) /\
  (forall row0 row3, rows !! 0%nat = Some row0 -> jobId_readable lxml row0 ->
     rows !! 3%nat = Some row3 -> ~ is_dict row3 ->
     parseSingleJobData lxml json_loads content = Raise AttributeError).
Proof.
  intros Hjson Hkey Hlen.
  assert (parseSingleJobData lxml json_loads content
          = (let job := ParsedJob_init in
             jobIdRow ← py_index (PList rows) 0;
             jobIdString ← py_get jobIdRow "1" PNone;
             job ← match jobIdRow with
                   | PNone => Ret job
                   | _ =>
                       soup ← BeautifulSoup_of lxml jobIdString;
                       aLink ← attr_of (Soup.find soup "a" []);
                       match Soup.contents aLink with
                       | [] => Ret job
                       | _ :: _ =>
                           x ← item (Soup.contents aLink) 0;
                           n ← py_int (PyNode x);
                           Ret (set_j_id n job)
                       end
                   end;
             jobAgentRow ← py_index (PList rows) 3;
             ag ← py_get jobAgentRow "1" (PStr "");
             jobStatusRow ← py_index (PList rows) 11;
             Raise IndexError)) as Hcall.
  { unfold parseSingleJobData. rewrite Hjson. simpl. rewrite Hkey. simpl.
    destruct (rows !! 0%nat) as [row0|]; simpl; [|done].
    destruct (py_get row0 "1" PNone) as [jobIdString|]; simpl; [|done].
    match goal with |- ?m ≫= _ = ?m ≫= _ => destruct m as [job|]; simpl; [|done] end.
    destruct (rows !! 3%nat) as [row3|]; simpl; [|done].
    destruct (py_get row3 "1" (PStr "")) as [ag|]; simpl; [|done].
    destruct (rows !! 11%nat) eqn:Hl; simpl; [|done].
    apply lookup_lt_Some in Hl. lia. }
  split; [|split; [|split; [|split; [|split; [|split; [|split]]]]]].
  - destruct (parseSingleJobData lxml json_loads content) as [o|e] eqn:H; [|by eexists].
    eapply singleJob_reads_status_row in H as [row Hrow]; [|eassumption..|done].
    simpl in Hrow. destruct (rows !! 11%nat) eqn:Hl; [|done].
    apply lookup_lt_Some in Hl. lia.
  - intros ->. by rewrite Hcall.
  - intros row0 H0 (es & markup & aLink & -> & Hmark & Ha & Hcont) H3.
    rewrite Hcall. simpl. rewrite H0. simpl. rewrite Hmark. simpl. rewrite Ha. simpl.
    destruct Hcont as [-> | (x & rest & -> & [n Hn])]; simpl; [|rewrite Hn; simpl].
    all: destruct (rows !! 3%nat) as [row3|] eqn:Hr3; [|reflexivity].
    all: destruct (H3 _ eq_refl) as [es3 ->]; simpl.
    all: destruct (rows !! 11%nat) eqn:Hl;
      [apply lookup_lt_Some in Hl; lia | by destruct (lookup_key "1" es3)].
  - intros row0 H0 Hnot. rewrite Hcall. simpl. rewrite H0. simpl.
    destruct row0; try reflexivity. exfalso. apply Hnot. by eexists.
  - intros e0 e H0 Hsoup. rewrite Hcall. simpl. rewrite H0. simpl.
    destruct (lookup_key "1" e0) as [[]|]; simpl in Hsoup; try discriminate Hsoup;
      injection Hsoup as <-; reflexivity.
  - intros e0 markup H0 Hmark Ha. rewrite Hcall. simpl. rewrite H0. simpl.
    rewrite Hmark. simpl. by rewrite Ha.
  - intros e0 markup aLink x rest e H0 Hmark Ha Hcont Hint.
    rewrite Hcall. simpl. rewrite H0. simpl. rewrite Hmark. simpl. rewrite Ha. simpl.
    rewrite Hcont. simpl. by rewrite Hint.
  - intros row0 row3 H0 (es & markup & aLink & -> & Hmark & Ha & Hcont) H3 Hnot.
    rewrite Hcall. simpl. rewrite H0. simpl. rewrite Hmark. simpl. rewrite Ha. simpl.
    destruct Hcont as [-> | (x & rest & -> & [n Hn])]; simpl; [|rewrite Hn; simpl].
    all: rewrite H3; simpl.
    all: destruct row3; try reflexivity; exfalso; apply Hnot; by eexists.
Qed.

Lemma init_reportId : reportId ParsedJob_init = -1.
Proof. reflexivity. Qed.

Lemma reportId_step (job job' : ParsedJob) (v : pyval) :
  (if (py_eq_str (agent job) "spdx2tv" || py_eq_str (agent job) "spdx2")
      && py_eq_str (status job) "Completed"
   then r ← py_int (PyVal v); Ret (set_reportId r job)
   else Ret job) = Ret job' ->
  reportId job = -1 ->
  reportId job' <> -1 ->
  py_eq_str (status job') "Completed" = true /\
  (py_eq_str (agent job') "spdx2tv" = true \/ py_eq_str (agent job') "spdx2" = true).
Proof.
  destruct (_ && _) eqn:Hcond; intros H Hinit Hne.
  - apply bind_Ret in H as (r & _ & H). injection H as <-. simpl.
    apply andb_true_iff in Hcond as [Hagent Hstatus].
    apply orb_true_iff in Hagent. done.
  - injection H as <-. done.
Qed.

Theorem singleJob_reportId (content : string) (job : ParsedJob) :
  parseSingleJobData lxml json_loads content = Ret (Some job) ->
  reportId job <> -1 ->
  py_eq_str (status job) "Completed" = true /\
  (py_eq_str (agent job) "spdx2tv" = true \/ py_eq_str (agent job) "spdx2" = true).
Proof.
  unfold parseSingleJobData. intros H.
  do 2 bind_step H.
  destruct x0; [done|..]; do 11 bind_step H.
  all: injection H as <-.
  all: eapply reportId_step; [eassumption|].
  all: assert (reportId x2 = -1) as Hid by
    (clear - Hx3; destruct x0; [by injection Hx3 as <- |..];
     do 2 bind_step Hx3; (destruct (Soup.contents _); [by injection Hx3 as <- |]);
     do 2 bind_step Hx3; by injection Hx3 as <-).
  all: destruct x6; try discriminate Hx8; by injection Hx8 as <-.
Qed.

Lemma jobOfRow_reportId (row : node) (job : ParsedJob) :
  jobOfRow row = Ret (Some job) ->
  reportId job <> -1 ->
  py_eq_str (status job) "Completed" = true.
Proof.
  unfold jobOfRow. destruct (Soup.get row "class"); [|done].
  destruct (_ <? _)%nat; [done|]. intros H.
  do 6 bind_step H. do 3 bind_step H. injection H as <-.
  assert (reportId x4 = -1) as Hid.
  { clear - Hx4. destruct (Soup.contents x3); [by injection Hx4 as <- |].
    bind_step Hx4. by injection Hx4 as <-. }
  simpl in Hx7. destruct (py_eq_str (status x4) "Completed") eqn:Hstatus.
  - bind_step Hx7.
    match type of Hx7 with match ?o with _ => _ end = _ => destruct o end.
    + do 2 bind_step Hx7. by injection Hx7 as <-.
    + by injection Hx7 as <-.
  - by injection Hx7 as <-.
Qed.

Lemma for_append_elem {A B} (body : A -> result (option B)) xs out b :
  for_append body xs [] = Ret out -> b ∈ out ->
  exists x, x ∈ xs /\ body x = Ret (Some b).
Proof.
  intros H Hb. apply for_append_Ret in H as (os & Hos & ->). simpl in Hb.
  apply list_elem_of_omap in Hb as (o & Ho & Heq); simpl in Heq; subst o.
  apply list_elem_of_lookup in Ho as [i Hi].
  destruct (Forall2_lookup_r _ _ _ _ _ Hos Hi) as (x & Hx & Hbody).
  exists x. split; [|done]. apply list_elem_of_lookup; eauto.
Qed.

(** C2.  A job returned by either job extractor has a [reportId] other than
    -1 only if its status equals "Completed"; a job returned by the
    single-job extractor has one only if, besides, its agent is "spdx2tv"
    or "spdx2". *)
Theorem reportId_only_when_completed :
  (forall content jobs job,
     parseDecodedAjaxShowJobsData lxml content = Ret jobs -> job ∈ jobs ->
     reportId job <> -1 -> py_eq_str (status job) "Completed" = true) /\
  (forall content job,
     parseSingleJobData lxml json_loads content = Ret (Some job) ->
     reportId job <> -1 ->
     py_eq_str (status job) "Completed" = true /\
     (py_eq_str (agent job) "spdx2tv" = true \/ py_eq_str (agent job) "spdx2" = true)).
Proof.
  split.
  - intros content jobs job H Hjob. unfold parseDecodedAjaxShowJobsData in H.
    destruct (for_append_elem _ _ _ _ H Hjob) as (row & _ & Hrow).
    intros Hne. by eapply jobOfRow_reportId.
  - apply singleJob_reportId.
Qed.


(** *** Job table *)

Lemma jobOfRow_Some_dataRow (row : node) (job : ParsedJob) :
  jobOfRow row = Ret (Some job) -> dataRow row = true.
Proof.
  unfold jobOfRow, dataRow. destruct (Soup.get row "class"); [|done].
  destruct (_ <? _)%nat eqn:Hlen; [done|]. intros _.
  apply Nat.ltb_ge in Hlen. by apply Nat.leb_le.
Qed.

Lemma jobOfRow_None_dataRow (row : node) :
  jobOfRow row = Ret None -> dataRow row = false.
Proof.
  unfold jobOfRow, dataRow. destruct (Soup.get row "class"); [|done].
  destruct (_ <? _)%nat eqn:Hlen.
  - intros _. apply Nat.ltb_lt in Hlen. apply Nat.leb_gt. lia.
  - intros H. do 9 bind_step H. discriminate H.
Qed.

Lemma jobOfRow_completed_99 (row : node) (n : Z) (st ag : node) :
  completed_row_99 row n st ag ->
  jobOfRow row = Ret (Some (mkJob n (PyNode st) (PyNode ag) 99)).
Proof.
  intros (cl & c0 & c1 & c2 & c3 & c4 & c5 & c6 & c7 & a0 & x & rest0 & rest1 & rest2
          & aLink & href & pre & Hcl & Htd & Ha0 & Hx & Hn & Hst & Hdone & Hag & Ha7
          & Hhref & Hfind).
  unfold jobOfRow. rewrite Hcl, Htd. simpl.
  rewrite Ha0. simpl. rewrite Hx. simpl. rewrite Hn. simpl.
  rewrite Hst. simpl. rewrite Hag. simpl.
  unfold set_status, set_agent, set_j_id. simpl. rewrite Hdone. simpl.
  rewrite Ha7, Hhref. simpl.
  unfold Str.partition. rewrite Hfind. reflexivity.
Qed.

Lemma jobTable_data_rows (rows : list node) (jobs : list ParsedJob) :
  for_append jobOfRow rows [] = Ret jobs ->
  Forall2 (fun row job => jobOfRow row = Ret (Some job)) (List.filter dataRow rows) jobs.
Proof.
  intros H. apply for_append_Ret in H as (os & Hos & ->). simpl.
  induction Hos as [|row o rest os Hrow _ IH]; [constructor|].
  destruct o as [job|]; simpl.
  - rewrite (jobOfRow_Some_dataRow _ _ Hrow). cbn. by constructor.
  - rewrite (jobOfRow_None_dataRow _ Hrow). exact IH.
Qed.


(** *** New upload number *)

Lemma anchor_without_upload (anchor : node) :
  upload_href anchor = false ->
  match Soup.get anchor "href" with
  | None => Ret None
  | Some href =>
      if Str.contains "upload=" href
      then
        let p := Str.partition href "upload=" in
        n ← Str.to_int (snd p); Ret (Some n)
      else Ret None
  end = Ret None.
Proof.
  unfold upload_href. destruct (Soup.get anchor "href") as [href|]; [|done].
  by intros ->.
Qed.

(** The scan stops at the first anchor whose [href] holds [upload=]; what
    it returns, or raises, is the conversion of the text after the marker. *)
Lemma newUploadNumber_first (content : string) (before after : list node)
    (a : node) (href : string) :
  Soup.find_all (BeautifulSoup lxml content) "a" [] = before ++ a :: after ->
  Forall (fun a' => upload_href a' = false) before ->
  Soup.get a "href" = Some href ->
  Str.contains "upload=" href = true ->
  parseAnchorTagsForNewUploadNumber lxml content
  = Str.to_int (snd (Str.partition href "upload=")).
Proof.
  intros Hanchors Hbefore Hhref Hcontains. unfold parseAnchorTagsForNewUploadNumber.
  rewrite Hanchors, for_return_first.
  - rewrite Hhref, Hcontains. simpl. by destruct (Str.to_int _).
  - eapply Forall_impl; [exact Hbefore|]. intros a'. apply anchor_without_upload.
Qed.

(** C7.  When no anchor of the document has an [href] holding [upload=] the
    upload-number lookup returns -1.  When the first anchor that has one,
    wherever it sits in the tree, reads [42] after the marker, the lookup
    returns 42; the anchors looked at are all the [a] tags below the root. *)
Theorem newUploadNumber_sentinel_and_42 (content : string) :
  let anchors := Soup.find_all (BeautifulSoup lxml content) "a" [] in
  (Forall (fun a => upload_href a = false) anchors ->
   parseAnchorTagsForNewUploadNumber lxml content = Ret (-1)) /\
  (forall before a after href pre,
     anchors = before ++ a :: after ->
     Forall (fun a' => upload_href a' = false) before ->
     Soup.get a "href" = Some href ->
     Str.find "upload=" href = Some (pre, "42") ->
     parseAnchorTagsForNewUploadNumber lxml content = Ret 42) /\
  (forall a,
     In a (Soup.descendants (BeautifulSoup lxml content)) ->
     Soup.is_tag "a" [] a = true ->
     In a anchors).
Proof.
  intros anchors. split; [|split].
  - intros Hnone. unfold parseAnchorTagsForNewUploadNumber. fold anchors.
    rewrite for_return_none; [done|].
    eapply Forall_impl; [exact Hnone|]. intros a. apply anchor_without_upload.
  - intros before a after href pre Hanchors Hbefore Hhref Hfind.
    erewrite newUploadNumber_first; [|eassumption..|].
    + unfold Str.partition. by rewrite Hfind.
    + unfold Str.contains. by rewrite Hfind.
  - intros a Hin Htag. apply filter_In. by split.
Qed.

(** C10.  At the first anchor whose [href] holds [upload=], the lookup
    converts everything after the first [upload=] of that [href] with
    [int]: its outcome is the outcome of the conversion.  When that
    remainder is [42&foo=1] the conversion fails and the call raises the
    value error, returning neither 42 nor -1. *)
Theorem newUploadNumber_converts_remainder (content : string)
    (before after : list node) (a : node) (href : string) :
  Soup.find_all (BeautifulSoup lxml content) "a" [] = before ++ a :: after ->
  Forall (fun a' => upload_href a' = false) before ->
  Soup.get a "href" = Some href ->
  Str.contains "upload=" href = true ->
  parseAnchorTagsForNewUploadNumber lxml content
  = Str.to_int (snd (Str.partition href "upload=")) /\
  (snd (Str.partition href "upload=") = "42&foo=1" ->
   parseAnchorTagsForNewUploadNumber lxml content = Raise ValueError).
Proof.
  intros Hanchors Hbefore Hhref Hcontains.
  pose proof (newUploadNumber_first _ _ _ _ _ Hanchors Hbefore Hhref Hcontains) as H.
  split; [exact H|]. intros Hrest. by rewrite H, Hrest.
Qed.

(** *** Folder number *)

(** C5 (as amended).  The folder lookup compares the trimmed text of an
    option with the folder name exactly as supplied: the name itself is not
    trimmed, and the comparison is case-sensitive.  The first option, in the
    order the lookup visits them, whose trimmed text is the name decides the
    call, which returns the option's [value]; when no option matches, and so
    when there is no [select] named [folder], the call returns the absent
    value. *)
Theorem folderNumber_trims_option_text (content folderName : string) :
  let options := folder_options (BeautifulSoup lxml content) in
  (Forall (fun o => Str.strip (Soup.text o) <> folderName) options ->
   parseFolderNumber lxml content folderName = Ret None) /\
  (forall before o after,
     options = before ++ o :: after ->
     Forall (fun o' => Str.strip (Soup.text o') <> folderName) before ->
     Str.strip (Soup.text o) = folderName ->
     parseFolderNumber lxml content folderName
     = (v ← Soup.getitem o "value"; Ret (Some v))) /\
  (Soup.find_all (BeautifulSoup lxml content) "select" [("name", "folder")] = [] ->
   parseFolderNumber lxml content folderName = Ret None).
Proof.
  intros options. unfold parseFolderNumber.
  rewrite (for_return_nested (fun folder => Soup.find_all folder "option" [])).
  fold (folder_options (BeautifulSoup lxml content)). fold options.
  assert (forall l, Forall (fun o => Str.strip (Soup.text o) <> folderName) l ->
            Forall (fun o => (if String.eqb (Str.strip (Soup.text o)) folderName
                              then v ← Soup.getitem o "value"; Ret (Some v)
                              else Ret None) = Ret None) l) as Hskip.
  { intros l Hl. eapply Forall_impl; [exact Hl|]. intros o Hne. simpl.
    by destruct (String.eqb_spec (Str.strip (Soup.text o)) folderName). }
  split; [|split].
  - intros Hnone. by apply for_return_none, Hskip.
  - intros before o after -> Hbefore Hmatch.
    rewrite for_return_first by by apply Hskip.
    apply String.eqb_eq in Hmatch. rewrite Hmatch.
    by destruct (Soup.getitem o "value").
  - intros Hsel. subst options. unfold folder_options. by rewrite Hsel.
Qed.

End Properties.

(** ** The sample responses, run through the extractors *)

(** C1, the claim as stated fails: for the line item whose markup is
    [<i>pkg</i>], with no bold tag, the extractor returns no record, so none
    whose name is the default; it raises. *)
Lemma lineItem_without_bold_no_record :
  Soup.find (BeautifulSoup Fixture.lxml Fixture.no_bold) "b" [] = None /\
  parseUploadDataForFolderLineItem Fixture.lxml (Fixture.line_item Fixture.no_bold 7)
  = Raise AttributeError /\
  ~ (exists u,
       parseUploadDataForFolderLineItem Fixture.lxml (Fixture.line_item Fixture.no_bold 7)
       = Ret u /\ name u = name ParsedUpload_init).
Proof.
  split; [reflexivity|]. split; [reflexivity|].
  intros (u & H & _). discriminate H.
Qed.

Lemma lineItem_without_bold_raises_witness :
  parseUploadDataForFolderLineItem Fixture.lxml (Fixture.line_item Fixture.no_bold 7)
  = Raise AttributeError.
Proof.
  apply (lineItem_without_bold_raises Fixture.lxml _ Fixture.no_bold); reflexivity.
Defined.


Lemma formBuildToken_never_raises_witness :
  parseUploadFormBuildToken Fixture.lxml Fixture.token_form = (Ret (Some "tok123"), []) /\
  parseUploadFormBuildToken Fixture.lxml Fixture.no_link
  = (Ret None, [LogWarning "Couldn't extract uploadformbuild token: " AttributeError]) /\
  parseUploadFormBuildToken Probe.lxml Probe.token_no_value = (Ret None, []).
Proof.
  split; [|split].
  - exact (proj2 (formBuildToken_never_raises Fixture.lxml Fixture.token_form)).
  - exact (proj2 (formBuildToken_never_raises Fixture.lxml Fixture.no_link)).
  - exact (proj2 (formBuildToken_never_raises Probe.lxml Probe.token_no_value)).
Defined.

Lemma singleJob_without_aaData_witness :
  parseSingleJobData Fixture.lxml Fixture.json_loads Fixture.empty_object = Ret None.
Proof.
  apply (singleJob_without_aaData Fixture.lxml Fixture.json_loads Fixture.empty_object []);
    reflexivity.
Defined.

(** C9, the claim as stated fails: with [aaData] holding one row, fewer
    than twelve, whose markup has no anchor, the error that reaches the
    caller is not the out-of-range one; reading the job id raises the
    attribute error first. *)
Lemma singleJob_short_table_other_error :
  Fixture.json_loads Fixture.pending_row
  = Ret (PDict [("aaData", PList [PDict [("1", PStr "pending")]])]) /\
  (length [PDict [("1", PStr "pending")]] < 12)%nat /\
  Soup.find (BeautifulSoup Fixture.lxml "pending") "a" [] = None /\
  parseSingleJobData Fixture.lxml Fixture.json_loads Fixture.pending_row
  = Raise AttributeError /\
  parseSingleJobData Fixture.lxml Fixture.json_loads Fixture.pending_row
  <> Raise IndexError.
Proof.
  split; [reflexivity|]. split; [simpl; lia|]. split; [reflexivity|].
  split; [reflexivity|]. discriminate.
Qed.

Lemma singleJob_short_table_raises_witness :
  raises (parseSingleJobData Fixture.lxml Fixture.json_loads Fixture.one_row) /\
  parseSingleJobData Fixture.lxml Fixture.json_loads Fixture.one_row = Raise IndexError /\
  parseSingleJobData Fixture.lxml Fixture.json_loads Fixture.no_rows = Raise IndexError /\
  parseSingleJobData Fixture.lxml Fixture.json_loads Fixture.pending_row
  = Raise AttributeError.
Proof.
  assert (length [Fixture.field Fixture.job_link] < 12)%nat as Hone by (simpl; lia).
  assert (length (@nil pyval) < 12)%nat as Hnone by (simpl; lia).
  assert (length [Fixture.field Fixture.pending] < 12)%nat as Hpending by (simpl; lia).
  destruct (singleJob_short_table_raises Fixture.lxml Fixture.json_loads
              Fixture.one_row _ _ eq_refl eq_refl Hone) as (Hraises & _ & Hindex & _).
  destruct (singleJob_short_table_raises Fixture.lxml Fixture.json_loads
              Fixture.no_rows _ _ eq_refl eq_refl Hnone) as (_ & Hempty & _).
  destruct (singleJob_short_table_raises Fixture.lxml Fixture.json_loads
              Fixture.pending_row _ _ eq_refl eq_refl Hpending)
    as (_ & _ & _ & _ & _ & Hanchor & _).
  split; [exact Hraises|]. split; [|split; [exact (Hempty eq_refl)|]].
  - apply (Hindex (Fixture.field Fixture.job_link) eq_refl).
    + exists [("1", PStr Fixture.job_link)], Fixture.job_link,
        (Tag "a" [("href", "#")] [NavigableString "12"]).
      split; [reflexivity|]. split; [reflexivity|]. split; [reflexivity|].
      right. exists (NavigableString "12"), []. split; [reflexivity|].
      exists 12. reflexivity.
    + intros row3 Hrow3. discriminate Hrow3.
  - apply (Hanchor [("1", PStr Fixture.pending)] Fixture.pending); reflexivity.
Defined.

Lemma reportId_only_when_completed_witness :
  parseDecodedAjaxShowJobsData Fixture.lxml Fixture.jobs = Ret [Fixture.table_job] /\
  py_eq_str (status Fixture.table_job) "Completed" = true /\
  parseSingleJobData Fixture.lxml Fixture.json_loads Fixture.job_table
  = Ret (Some Fixture.single_job) /\
  py_eq_str (status Fixture.single_job) "Completed" = true /\
  (py_eq_str (agent Fixture.single_job) "spdx2tv" = true \/
   py_eq_str (agent Fixture.single_job) "spdx2" = true).
Proof.
  destruct (reportId_only_when_completed Fixture.lxml Fixture.json_loads)
    as [Htable Hsingle].
  split; [reflexivity|]. split.
  - apply (Htable Fixture.jobs [Fixture.table_job] Fixture.table_job eq_refl);
      [|simpl; lia].
    apply list_elem_of_here.
  - split; [reflexivity|].
    apply (Hsingle Fixture.job_table Fixture.single_job eq_refl). simpl; lia.
Defined.


(** C5, the claim as stated fails: against the option whose text is
    [Engineering] the padded name does not match, though the two are equal
    once both are trimmed; only the bare name finds the option. *)
Lemma folderNumber_padded_name_no_match :
  folder_options (BeautifulSoup Fixture.lxml Fixture.folders)
  = [Tag "option" [("value", "5")] [NavigableString "Engineering"]] /\
  Str.strip " Engineering " = Str.strip "Engineering" /\
  parseFolderNumber Fixture.lxml Fixture.folders " Engineering " = Ret None /\
  parseFolderNumber Fixture.lxml Fixture.folders "Engineering" = Ret (Some "5").
Proof. repeat split; reflexivity. Qed.

Lemma folderNumber_trims_option_text_witness :
  parseFolderNumber Fixture.lxml Fixture.folders_padded "Engineering" = Ret (Some "6") /\
  parseFolderNumber Fixture.lxml Fixture.folders "engineering" = Ret None /\
  parseFolderNumber Fixture.lxml Fixture.no_link "Engineering" = Ret None.
Proof.
  split; [|split].
  - destruct (folderNumber_trims_option_text Fixture.lxml Fixture.folders_padded
                "Engineering") as (_ & Hfirst & _).
    apply (Hfirst [] (Tag "option" [("value", "6")] [NavigableString " Engineering "]) []);
      [reflexivity | constructor | reflexivity].
  - destruct (folderNumber_trims_option_text Fixture.lxml Fixture.folders
                "engineering") as (Hnone & _ & _).
    apply Hnone. repeat constructor. discriminate.
  - destruct (folderNumber_trims_option_text Fixture.lxml Fixture.no_link
                "Engineering") as (_ & _ & Hselect).
    apply Hselect. reflexivity.
Defined.

Lemma newUploadNumber_sentinel_and_42_witness :
  parseAnchorTagsForNewUploadNumber Fixture.lxml Fixture.no_link = Ret (-1) /\
  parseAnchorTagsForNewUploadNumber Fixture.lxml Fixture.upload_link = Ret 42.
Proof.
  split.
  - destruct (newUploadNumber_sentinel_and_42 Fixture.lxml Fixture.no_link)
      as (Hnone & _ & _).
    apply Hnone. repeat constructor.
  - destruct (newUploadNumber_sentinel_and_42 Fixture.lxml Fixture.upload_link)
      as (_ & Hfirst & _).
    apply (Hfirst [Tag "a" [("name", "top")] [NavigableString "up"]]
             (Tag "a" [("href", "x?upload=42")] [NavigableString "new"]) []
             "x?upload=42" "x?");
      [reflexivity | repeat constructor | reflexivity | reflexivity].
Defined.

Lemma newUploadNumber_converts_remainder_witness :
  parseAnchorTagsForNewUploadNumber Fixture.lxml Fixture.upload_link_more
  = Str.to_int "42&foo=1" /\
  parseAnchorTagsForNewUploadNumber Fixture.lxml Fixture.upload_link_more
  = Raise ValueError.
Proof.
  destruct (newUploadNumber_converts_remainder Fixture.lxml Fixture.upload_link_more
              [] [] (Tag "a" [("href", "x?upload=42&foo=1")] [NavigableString "new"])
              "x?upload=42&foo=1" eq_refl (Forall_nil_2 _) eq_refl eq_refl)
    as [Hconv Hraise].
  split; [exact Hconv | apply Hraise; reflexivity].
Defined.

(** * Further properties *)

(** ** Loops that leave by an exception *)

(** A loop raises exactly when the body raises on some element after
    returning on all those before it; the error is that of the body. *)
Lemma for_append_Raise {A B} (body : A -> result (option B)) xs e :
  forall acc,
    for_append body xs acc = Raise e <->
    exists before x after,
      xs = before ++ x :: after /\
      Forall (fun y => returns (body y)) before /\
      body x = Raise e.
Proof.
  induction xs as [|x rest IH]; intros acc; simpl.
  - split; [discriminate|]. intros (before & y & after & Hxs & _). by destruct before.
  - destruct (body x) as [o|e'] eqn:Hx; simpl.
    + assert (for_append body rest (match o with Some b => acc ++ [b] | None => acc end)
              = match o with
                | Some b => for_append body rest (acc ++ [b])
                | None => for_append body rest acc
                end) as <- by by destruct o.
      rewrite IH. split.
      * intros (before & y & after & -> & Hbefore & Hy).
        exists (x :: before), y, after. split; [done|]. split; [|done].
        constructor; [by eexists | done].
      * intros (before & y & after & Hxs & Hbefore & Hy).
        destruct before as [|x' before]; simpl in Hxs; injection Hxs as -> ->.
        { rewrite Hx in Hy. discriminate. }
        apply Forall_cons in Hbefore as [_ Hbefore]. eauto 6.
    + split.
      * intros [= ->]. exists [], x, rest. split; [done|]. split; [constructor | done].
      * intros (before & y & after & Hxs & Hbefore & Hy).
        destruct before as [|x' before]; simpl in Hxs; injection Hxs as -> ->.
        { rewrite Hx in Hy. by injection Hy as ->. }
        apply Forall_cons in Hbefore as [[o Ho] _]. rewrite Hx in Ho. discriminate.
Qed.

(** What has been appended so far does not change what a loop appends. *)
Lemma for_append_acc {A B} (body : A -> result (option B)) xs :
  forall acc,
    for_append body xs acc = (out ← for_append body xs []; Ret (acc ++ out)).
Proof.
  induction xs as [|x rest IH]; intros acc; simpl.
  - by rewrite app_nil_r.
  - destruct (body x) as [[b|]|e]; simpl; [|apply IH|done].
    rewrite (IH (acc ++ [b])), (IH [b]).
    destruct (for_append body rest []); simpl; [|done]. by rewrite <- app_assoc.
Qed.

Lemma for_append_app {A B} (body : A -> result (option B)) xs ys :
  for_append body (xs ++ ys) []
  = (a ← for_append body xs []; b ← for_append body ys []; Ret (a ++ b)).
Proof.
  assert (forall acc, for_append body (xs ++ ys) acc
                      = (a ← for_append body xs acc; for_append body ys a)) as H.
  { induction xs as [|x rest IH]; intros acc; simpl; [done|].
    destruct (body x) as [[b|]|e]; simpl; [apply IH|apply IH|done]. }
  rewrite H. destruct (for_append body xs []) as [a|e]; simpl; [|done].
  apply for_append_acc.
Qed.

(** ** Strings, continued *)

Lemma length_append (s t : string) :
  String.length (s ++ t)%string = (String.length s + String.length t)%nat.
Proof. induction s as [|c s IH]; unfold_append; simpl; [done|]. by rewrite IH. Qed.

Lemma append_assoc (s t u : string) : ((s ++ t) ++ u = s ++ (t ++ u))%string.
Proof. induction s as [|c s IH]; unfold_append; [done|]. by rewrite IH. Qed.

(** The text [Str.find] cuts off in front holds no occurrence of a
    non-empty separator. *)
Lemma find_before_free (sep s before rest : string) :
  sep <> EmptyString ->
  Str.find sep s = Some (before, rest) ->
  Str.contains sep before = false.
Proof.
  intros Hsep Hfind. unfold Str.contains.
  destruct (Str.find sep before) as [[b r]|] eqn:Hinner; [|done]. exfalso.
  apply find_split in Hinner. pose proof (find_split _ _ _ _ Hfind) as Hs.
  rewrite Hinner, !append_assoc in Hs.
  pose proof (find_first _ _ _ _ _ _ Hfind Hs) as Hlen.
  rewrite Hinner, !length_append in Hlen.
  destruct sep; [done|]. simpl in Hlen. lia.
Qed.

Lemma lstrip_starts (s : string) : starts_blank (Str.lstrip s) = false.
Proof.
  induction s as [|c s IH]; simpl; [done|].
  destruct (Str.isspace c) eqn:Hc; [done|]. simpl. by rewrite Hc.
Qed.

Lemma rstrip_starts (s : string) :
  starts_blank s = false -> starts_blank (Str.rstrip s) = false.
Proof.
  destruct s as [|c s]; simpl; [done|]. intros Hc.
  destruct (Str.rstrip s); simpl; [by rewrite Hc | done].
Qed.

Lemma rstrip_ends (s : string) : ends_blank (Str.rstrip s) = false.
Proof.
  induction s as [|c s IH]; simpl; [done|].
  destruct (Str.rstrip s) as [|c' r]; simpl.
  - destruct (Str.isspace c) eqn:Hc; simpl; [done | by rewrite Hc].
  - exact IH.
Qed.

(** [strip] leaves no blank at either end. *)
Lemma strip_edges (s : string) :
  starts_blank (Str.strip s) = false /\ ends_blank (Str.strip s) = false.
Proof.
  unfold Str.strip. split; [apply rstrip_starts, lstrip_starts | apply rstrip_ends].
Qed.

(** A list either has no element passing a test, or splits at the first
    one that does. *)
Lemma first_true_split {A} (p : A -> bool) (l : list A) :
  Forall (fun x => p x = false) l \/
  exists before x after,
    l = before ++ x :: after /\ Forall (fun y => p y = false) before /\ p x = true.
Proof.
  induction l as [|x l [IH | (before & y & after & -> & Hbefore & Hy)]].
  - left. constructor.
  - destruct (p x) eqn:Hx.
    + right. exists [], x, l. split; [done|]. split; [constructor | done].
    + left. by constructor.
  - destruct (p x) eqn:Hx.
    + right. exists [], x, (before ++ y :: after). split; [done|]. split; [constructor | done].
    + right. exists (x :: before), y, after. split; [done|]. split; [by constructor | done].
Qed.

(** A literal of more digits than the interpreter converts is rejected,
    well formed or not. *)
Lemma to_int_digit_limit (s : string) :
  (Str.int_max_str_digits < Str.count_digits (Str.int_rstrip (Str.int_lstrip s)))%N ->
  Str.to_int s = Raise ValueError.
Proof.
  intros H. apply N.ltb_lt in H. unfold Str.to_int. rewrite H.
  by destruct (Str.signed _).
Qed.

Lemma to_int_error (s : string) (e : exn) : Str.to_int s = Raise e -> e = ValueError.
Proof.
  unfold Str.to_int. destruct (Str.signed _); [|congruence].
  destruct (_ <? _)%N; [congruence | discriminate].
Qed.

Lemma item_Ret (xs : list node) (i : nat) (x : node) :
  item xs i = Ret x -> xs !! i = Some x.
Proof. unfold item. destruct (xs !! i); [congruence | discriminate]. Qed.

(** ** Steps of the single-job extractor *)

Lemma py_index_list (v : pyval) (i : nat) (entries : list (string * pyval)) :
  py_index v i = Ret (PDict entries) ->
  exists rows, v = PList rows /\ rows !! i = Some (PDict entries).
Proof.
  destruct v as [| | |s|rows|]; simpl; try discriminate.
  - destruct (String.get i s); discriminate.
  - destruct (rows !! i) as [y|] eqn:Hi; [|discriminate]. intros [= ->]. by exists rows.
Qed.

Lemma py_get_Ret (v x : pyval) (key : string) (d : pyval) :
  py_get v key d = Ret x ->
  exists entries, v = PDict entries /\ x = default d (lookup_key key entries).
Proof.
  destruct v as [| | | | |entries]; simpl; try discriminate.
  intros H. exists entries. split; [done|].
  destruct (lookup_key key entries); by injection H as <-.
Qed.

Lemma utf8_length (s : string) : (String.length s <= String.length (utf8_encode s))%nat.
Proof.
  induction s as [|c s IH]; simpl; [done|]. rewrite length_append.
  unfold utf8_char. destruct (_ <? _)%N; simpl; lia.
Qed.

Section Coverage.

Variable lxml : string -> list node.
Variable json_loads : string -> result pyval.

(** ** Upload listing *)

(** X1.  A record the line-item extractor returns is fully determined by
    the line item: its name is the string of the first bold tag of cell 0,
    its id the first element of cell 2, each URL the [value] attribute of
    the first option with the matching title (the default empty string
    when there is no such option, the absent value when the option has no
    [value]), and its folder id is never filled in. *)
Theorem lineItem_record (lineItem : pyval) (u : ParsedUpload) :
  parseUploadDataForFolderLineItem lxml lineItem = Ret u ->
  exists markup b cell2 i,
    py_index lineItem 0 = Ret (PStr markup) /\
    Soup.find (BeautifulSoup lxml markup) "b" [] = Some b /\
    py_index lineItem 2 = Ret cell2 /\
    py_index cell2 0 = Ret i /\
    name u = opt_node (Soup.string_ b) /\
    u_id u = PyVal i /\
    folderId u = -1 /\
    spdxXmlUrl u
    = match Soup.find (BeautifulSoup lxml markup) "option"
              [("title", "Generate SPDX report")] with
      | Some o => opt_str (Soup.get o "value")
      | None => PyVal (PStr "")
      end /\
    spdxTvUrl u
    = match Soup.find (BeautifulSoup lxml markup) "option"
              [("title", "Generate SPDX report in tag:value format")] with
      | Some o => opt_str (Soup.get o "value")
      | None => PyVal (PStr "")
      end.
Proof.
  unfold parseUploadDataForFolderLineItem. intros H.
  apply bind_Ret in H as (cell0 & Hcell0 & H).
  apply bind_Ret in H as (soup & Hsoup & H).
  destruct cell0 as [| | |markup| |]; try discriminate Hsoup. injection Hsoup as <-.
  apply bind_Ret in H as (b & Hb & H).
  destruct (Soup.find (BeautifulSoup lxml markup) "b" []) as [b'|] eqn:Hbold;
    simpl in Hb; [|discriminate Hb]. injection Hb as ->.
  cbv beta zeta in H.
  apply bind_Ret in H as (cell2 & Hcell2 & H).
  apply bind_Ret in H as (i & Hi & H). injection H as <-.
  exists markup, b, cell2, i. repeat (split; [done|]).
  split; simpl.
  - by destruct (Soup.find _ "option" [("title", "Generate SPDX report in tag:value format")]),
      (Soup.find _ "option" [("title", "Generate SPDX report")]).
  - by destruct (Soup.find _ "option" [("title", "Generate SPDX report in tag:value format")]),
      (Soup.find _ "option" [("title", "Generate SPDX report")]).
Qed.

(** X2.  A line item that has its bold tag but no usable id cell raises the
    out-of-range error: when it has fewer than three cells, and when cell 2
    is an empty list. *)
Theorem lineItem_missing_id_cell (cells : list pyval) (markup : string) (b : node) :
  cells !! 0%nat = Some (PStr markup) ->
  Soup.find (BeautifulSoup lxml markup) "b" [] = Some b ->
  (length cells <= 2)%nat \/ cells !! 2%nat = Some (PList []) ->
  parseUploadDataForFolderLineItem lxml (PList cells) = Raise IndexError.
Proof.
  intros Hcell Hb Hid. unfold parseUploadDataForFolderLineItem.
  simpl. rewrite Hcell. simpl. rewrite Hb. simpl.
  destruct Hid as [Hlen | Hempty].
  - rewrite (lookup_ge_None_2 cells 2) by lia. reflexivity.
  - rewrite Hempty. reflexivity.
Qed.

(** X3.  When the upload listing returns, no line item has been left out:
    there is one record per line item, and the record at a position is the
    one extracted from the line item at that position. *)
Theorem parseAll_one_record_per_row (uploadData : list pyval) (us : list ParsedUpload) :
  parseAllUploadDataForFolder lxml uploadData = Ret us ->
  length us = length uploadData /\
  forall (i : nat) (lineItem : pyval),
    uploadData !! i = Some lineItem ->
    exists u, us !! i = Some u /\ parseUploadDataForFolderLineItem lxml lineItem = Ret u.
Proof.
  intros H. apply parseAll_rows in H. split.
  - symmetry. by eapply Forall2_length.
  - intros i lineItem Hi.
    destruct (Forall2_lookup_l _ _ _ _ _ H Hi) as (u & Hu & Hrow). eauto.
Qed.

(** X4.  The upload listing raises exactly when some line item raises while
    all the line items before it can be extracted; the error of the call is
    the error of that line item, and the records found so far are lost. *)
Theorem parseAll_raises_iff (uploadData : list pyval) (e : exn) :
  parseAllUploadDataForFolder lxml uploadData = Raise e <->
  exists before lineItem after,
    uploadData = before ++ lineItem :: after /\
    Forall (fun x => returns (parseUploadDataForFolderLineItem lxml x)) before /\
    parseUploadDataForFolderLineItem lxml lineItem = Raise e.
Proof.
  unfold parseAllUploadDataForFolder. rewrite for_append_Raise.
  assert (forall x, returns (u ← parseUploadDataForFolderLineItem lxml x; Ret (Some u))
                    <-> returns (parseUploadDataForFolderLineItem lxml x)) as Hret.
  { intros x. unfold returns.
    destruct (parseUploadDataForFolderLineItem lxml x) as [u|e']; simpl.
    - split; intros _; by eexists.
    - split; intros [? ?]; discriminate. }
  assert (forall x, (u ← parseUploadDataForFolderLineItem lxml x; Ret (Some u)) = Raise e
                    <-> parseUploadDataForFolderLineItem lxml x = Raise e) as Hraise.
  { intros x. destruct (parseUploadDataForFolderLineItem lxml x); simpl;
      split; intros Heq; congruence. }
  split; intros (before & x & after & Hxs & Hbefore & Hx);
    exists before, x, after; (split; [done|]); split;
    try (by apply Hraise); (eapply Forall_impl; [exact Hbefore|]); intros y; apply Hret.
Qed.

(** X5.  Listing two batches of line items one after the other is listing
    their concatenation: the records of the first batch, then those of the
    second, and the error of the first batch that fails. *)
Theorem parseAll_app (xs ys : list pyval) :
  parseAllUploadDataForFolder lxml (xs ++ ys)
  = (a ← parseAllUploadDataForFolder lxml xs;
     b ← parseAllUploadDataForFolder lxml ys;
     Ret (a ++ b)).
Proof. unfold parseAllUploadDataForFolder. apply for_append_app. Qed.


(** ** Folder number *)

Lemma folderNumber_options (content folderName : string) :
  parseFolderNumber lxml content folderName
  = for_return
      (fun option =>
         if String.eqb (Str.strip (Soup.text option)) folderName
         then v ← Soup.getitem option "value"; Ret (Some v)
         else Ret None)
      (folder_options (BeautifulSoup lxml content)).
Proof.
  unfold parseFolderNumber, folder_options.
  apply (for_return_nested (fun folder => Soup.find_all folder "option" [])).
Qed.

(** X6.  The folder lookup can fail in one way only: it raises the key
    error exactly when the first option whose trimmed text is the folder
    name has no [value] attribute.  Options after that one are not tried,
    whether or not they match and have a value. *)
Theorem folderNumber_raises_iff (content folderName : string) (e : exn) :
  parseFolderNumber lxml content folderName = Raise e <->
  e = KeyError /\
  exists before o after,
    folder_options (BeautifulSoup lxml content) = before ++ o :: after /\
    Forall (fun o' => String.eqb (Str.strip (Soup.text o')) folderName = false) before /\
    Str.strip (Soup.text o) = folderName /\
    Soup.get o "value" = None.
Proof.
  rewrite folderNumber_options.
  set (body := fun option : node =>
         if String.eqb (Str.strip (Soup.text option)) folderName
         then v ← Soup.getitem option "value"; Ret (Some v)
         else Ret None).
  assert (forall l, Forall (fun o => String.eqb (Str.strip (Soup.text o)) folderName = false) l ->
            Forall (fun o => body o = Ret None) l) as Hskip.
  { intros l Hl. eapply Forall_impl; [exact Hl|]. intros o Ho. unfold body. by rewrite Ho. }
  destruct (first_true_split
              (fun o => String.eqb (Str.strip (Soup.text o)) folderName)
              (folder_options (BeautifulSoup lxml content)))
    as [Hnone | (before & o & after & Hsplit & Hbefore & Ho)].
  - rewrite for_return_none by by apply Hskip. split; [discriminate|].
    intros (_ & before & o & after & Hsplit & _ & Ho & _).
    rewrite Hsplit in Hnone. apply Forall_app in Hnone as [_ Hnone].
    apply Forall_cons in Hnone as [Hno _].
    apply String.eqb_eq in Ho. congruence.
  - cbv beta in Ho. rewrite Hsplit, for_return_first by by apply Hskip.
    unfold body. rewrite Ho. unfold Soup.getitem.
    destruct (Soup.get o "value") as [v|] eqn:Hv; simpl.
    + split; [discriminate|].
      intros (_ & before' & o' & after' & Hsplit' & Hbefore' & Ho' & Hv').
      assert (before = before' /\ o = o') as [_ <-]; [|congruence].
      clear - Hsplit' Hbefore Hbefore' Ho Ho'. apply String.eqb_eq in Ho'.
      revert before' Hsplit' Hbefore'.
      induction before as [|x before IH]; intros [|x' before'] Hsplit' Hbefore';
        simpl in Hsplit'; injection Hsplit' as <- Hrest.
      * done.
      * apply Forall_cons in Hbefore' as [Hx _]. congruence.
      * apply Forall_cons in Hbefore as [Hx _]. congruence.
      * apply Forall_cons in Hbefore as [_ Hbefore].
        apply Forall_cons in Hbefore' as [_ Hbefore'].
        destruct (IH Hbefore _ Hrest Hbefore') as [-> ->]. done.
    + split.
      * intros [= <-]. split; [done|]. exists before, o, after.
        apply String.eqb_eq in Ho. done.
      * by intros [-> _].
Qed.

(** X7.  A folder name that begins or ends with a blank is never found:
    the text of an option is trimmed before it is compared and the name is
    not, so the lookup returns the absent value on every document. *)
Theorem folderNumber_blank_edge_name (content folderName : string) :
  starts_blank folderName = true \/ ends_blank folderName = true ->
  parseFolderNumber lxml content folderName = Ret None.
Proof.
  intros Hblank. rewrite folderNumber_options. apply for_return_none.
  apply Forall_forall. intros o _.
  destruct (String.eqb_spec (Str.strip (Soup.text o)) folderName) as [Heq|]; [|done].
  exfalso. destruct (strip_edges (Soup.text o)) as [Hstart Hend].
  rewrite Heq in Hstart, Hend. destruct Hblank; congruence.
Qed.

(** ** New upload number *)

(** X8.  Every value the upload-number lookup returns is accounted for:
    either no anchor has an [href] holding [upload=] and the value is -1,
    or the value is the integer read after the first [upload=] in the
    [href] of the first such anchor. *)
Theorem newUploadNumber_returns (content : string) (n : Z) :
  parseAnchorTagsForNewUploadNumber lxml content = Ret n ->
  let anchors := Soup.find_all (BeautifulSoup lxml content) "a" [] in
  (Forall (fun a => upload_href a = false) anchors /\ n = -1) \/
  (exists before a after href,
     anchors = before ++ a :: after /\
     Forall (fun a' => upload_href a' = false) before /\
     Soup.get a "href" = Some href /\
     Str.contains "upload=" href = true /\
     Str.to_int (snd (Str.partition href "upload=")) = Ret n).
Proof.
  intros H anchors.
  destruct (first_true_split upload_href anchors)
    as [Hnone | (before & a & after & Hsplit & Hbefore & Ha)].
  - left. split; [done|].
    unfold parseAnchorTagsForNewUploadNumber in H. fold anchors in H.
    rewrite for_return_none in H.
    + simpl in H. by injection H as <-.
    + eapply Forall_impl; [exact Hnone|]. intros a. apply anchor_without_upload.
  - right. unfold upload_href in Ha.
    destruct (Soup.get a "href") as [href|] eqn:Hhref; [|discriminate].
    exists before, a, after, href. repeat (split; [done|]).
    by rewrite <- (newUploadNumber_first lxml content before after a href).
Qed.

(** X9.  The upload-number lookup raises exactly when [int] rejects the
    text after the first [upload=] in the [href] of the first anchor that
    has one, and the error it raises is then the value error: no other
    input makes it raise, and it raises nothing else. *)
Theorem newUploadNumber_raises (content : string) (e : exn) :
  parseAnchorTagsForNewUploadNumber lxml content = Raise e <->
  e = ValueError /\
  exists before a after href,
    Soup.find_all (BeautifulSoup lxml content) "a" [] = before ++ a :: after /\
    Forall (fun a' => upload_href a' = false) before /\
    Soup.get a "href" = Some href /\
    Str.contains "upload=" href = true /\
    Str.to_int (snd (Str.partition href "upload=")) = Raise ValueError.
Proof.
  split.
  - intros H.
    destruct (first_true_split upload_href
                (Soup.find_all (BeautifulSoup lxml content) "a" []))
      as [Hnone | (before & a & after & Hsplit & Hbefore & Ha)].
    + exfalso. unfold parseAnchorTagsForNewUploadNumber in H.
      rewrite for_return_none in H; [discriminate|].
      eapply Forall_impl; [exact Hnone|]. intros a. apply anchor_without_upload.
    + unfold upload_href in Ha.
      destruct (Soup.get a "href") as [href|] eqn:Hhref; [|discriminate].
      rewrite (newUploadNumber_first lxml content before after a href) in H by done.
      pose proof (to_int_error _ _ H) as ->. split; [done|].
      exists before, a, after, href. done.
  - intros (-> & before & a & after & href & Hsplit & Hbefore & Hhref & Hcontains & Hint).
    by rewrite (newUploadNumber_first lxml content before after a href).
Qed.

(** ** Job table *)

(** X10.  The fields of a job the table extractor returns, read off its
    row: the id is the integer in the first anchor of cell 0, the agent the
    first node of cell 2, the status the first node of cell 1 or "Not
    started" when that cell is empty.  The report id is -1 unless the
    status is "Completed" and cell 7 has an anchor; it is then the integer
    after [report=] in the [href] of that anchor. *)
Theorem jobOfRow_fields (row : node) (job : ParsedJob) :
  jobOfRow row = Ret (Some job) ->
  exists c0 c1 c2 c7 a x ag,
    Soup.find_all row "td" [] !! 0%nat = Some c0 /\
    Soup.find_all row "td" [] !! 1%nat = Some c1 /\
    Soup.find_all row "td" [] !! 2%nat = Some c2 /\
    Soup.find_all row "td" [] !! 7%nat = Some c7 /\
    Soup.find c0 "a" [] = Some a /\
    Soup.contents a !! 0%nat = Some x /\
    py_int (PyNode x) = Ret (j_id job) /\
    Soup.contents c2 !! 0%nat = Some ag /\
    agent job = PyNode ag /\
    status job = match Soup.contents c1 with
                 | [] => PyVal (PStr "Not started")
                 | st :: _ => PyNode st
                 end /\
    if py_eq_str (status job) "Completed"
    then match Soup.find c7 "a" [] with
         | Some aLink =>
             exists href,
               Soup.get aLink "href" = Some href /\
               Str.to_int (snd (Str.partition href "report=")) = Ret (reportId job)
         | None => reportId job = -1
         end
    else reportId job = -1.
Proof.
  unfold jobOfRow. destruct (Soup.get row "class"); [|done].
  destruct (_ <? _)%nat eqn:Hlen; [done|]. apply Nat.ltb_ge in Hlen. intros H.
  apply bind_Ret in H as (c0 & Hc0 & H). apply item_Ret in Hc0.
  apply bind_Ret in H as (a & Ha & H).
  destruct (Soup.find c0 "a" []) as [a'|] eqn:Hfind; simpl in Ha; [|discriminate].
  injection Ha as ->.
  apply bind_Ret in H as (x & Hx & H). apply item_Ret in Hx.
  apply bind_Ret in H as (n & Hn & H). cbv beta zeta in H.
  apply bind_Ret in H as (c1 & Hc1 & H). apply item_Ret in Hc1.
  apply bind_Ret in H as (job1 & Hjob1 & H).
  apply bind_Ret in H as (c2 & Hc2 & H). apply item_Ret in Hc2.
  apply bind_Ret in H as (ag & Hag & H). apply item_Ret in Hag. cbv beta zeta in H.
  apply bind_Ret in H as (job2 & Hjob2 & H). injection H as <-.
  destruct (Soup.find_all row "td" [] !! 7%nat) as [c7|] eqn:Hc7;
    [|apply lookup_ge_None in Hc7; lia].
  exists c0, c1, c2, c7, a, x, ag. repeat (split; [done|]).
  assert (job1 = set_status (match Soup.contents c1 with
                             | [] => PyVal (PStr "Not started")
                             | st :: _ => PyNode st
                             end) (set_j_id n ParsedJob_init)) as ->.
  { destruct (Soup.contents c1) as [|st rest]; simpl in Hjob1; congruence. }
  simpl in Hjob2.
  destruct (py_eq_str _ "Completed") eqn:Hdone.
  - unfold item in Hjob2. rewrite Hc7 in Hjob2. simpl in Hjob2.
    destruct (Soup.find c7 "a" []) as [aLink|].
    + apply bind_Ret in Hjob2 as (href & Hhref & Hjob2).
      apply bind_Ret in Hjob2 as (r & Hr & Hjob2). injection Hjob2 as <-. simpl.
      rewrite Hdone. repeat (split; [done|]). exists href.
      destruct (Soup.get aLink "href"); simpl in Hhref; [|discriminate].
      by injection Hhref as ->.
    + injection Hjob2 as <-. simpl. by rewrite Hdone.
  - injection Hjob2 as <-. simpl. by rewrite Hdone.
Qed.

(** X11.  The job table raises exactly when some row raises while all the
    rows before it are read or skipped; the error of the call is the error
    of that row, which is a row with a class and at least eight cells, and
    the jobs found so far are lost. *)
Theorem jobTable_raises_iff (content : string) (e : exn) :
  parseDecodedAjaxShowJobsData lxml content = Raise e <->
  exists before row after,
    Soup.find_all (BeautifulSoup lxml content) "tr" [] = before ++ row :: after /\
    Forall (fun r => returns (jobOfRow r)) before /\
    jobOfRow row = Raise e /\
    dataRow row = true.
Proof.
  unfold parseDecodedAjaxShowJobsData. rewrite for_append_Raise.
  split; intros (before & row & after & Hrows & Hbefore & Hrow).
  - exists before, row, after. repeat (split; [done|]).
    unfold jobOfRow in Hrow. unfold dataRow.
    destruct (Soup.get row "class"); [|discriminate].
    destruct (_ <? _)%nat eqn:Hlen; [discriminate|].
    apply Nat.ltb_ge in Hlen. by apply Nat.leb_le.
  - exists before, row, after. by destruct Hrow.
Qed.

(** X12.  A completed row whose cell-7 anchor has no usable link makes the
    extractor raise instead of leaving the report id unset: the attribute
    error when the anchor has no [href], the value error when the [href]
    holds no [report=] marker. *)
Theorem jobOfRow_bad_report_link (row : node) (href : option string) :
  completed_row_link row href ->
  match href with
  | None => jobOfRow row = Raise AttributeError
  | Some h => Str.contains "report=" h = false -> jobOfRow row = Raise ValueError
  end.
Proof.
  intros (cl & c0 & c1 & c2 & c7 & a0 & x & n & st & ag & aLink & Hcl & Hlen & Hc0 & Hc1
          & Hc2 & Hc7 & Ha0 & Hx & Hn & Hst & Hdone & Hag & Ha7 & Hhref).
  assert (jobOfRow row
          = (h ← attr_of href;
             r ← Str.to_int (snd (Str.partition h "report="));
             Ret (Some (mkJob n (PyNode st) (PyNode ag) r)))) as ->.
  { unfold jobOfRow. rewrite Hcl. apply Nat.ltb_ge in Hlen. rewrite Hlen.
    unfold item. rewrite Hc0. simpl. rewrite Ha0. simpl. rewrite Hx. simpl.
    rewrite Hn. simpl. rewrite Hc1. simpl.
    destruct (Soup.contents c1) as [|st' rest1] eqn:Hcont; [discriminate|].
    injection Hst as ->. simpl. rewrite Hc2. simpl. rewrite Hag. simpl.
    unfold set_agent, set_status, set_j_id. simpl. rewrite Hdone. simpl.
    rewrite Hc7. simpl. rewrite Ha7, Hhref.
    destruct href as [h|]; simpl; [|done].
    by destruct (Str.to_int _). }
  destruct href as [h|]; simpl; [|done].
  intros Hno. unfold Str.contains in Hno. unfold Str.partition.
  destruct (Str.find "report=" h) as [[? ?]|]; [discriminate|]. reflexivity.
Qed.

(** ** Single job *)

(** X13.  The single-job extractor returns the absent value exactly when
    the decoded JSON is an object whose [aaData] entry is missing or null;
    every other return carries a record. *)
Theorem singleJob_None_iff (content : string) :
  parseSingleJobData lxml json_loads content = Ret None <->
  exists entries,
    json_loads content = Ret (PDict entries) /\
    (lookup_key "aaData" entries = None \/ lookup_key "aaData" entries = Some PNone).
Proof.
  unfold parseSingleJobData. split.
  - intros H. apply bind_Ret in H as (rj & Hrj & H).
    apply bind_Ret in H as (jobArr & HjobArr & H).
    apply py_get_Ret in HjobArr as (entries & -> & ->).
    exists entries. split; [done|].
    destruct (lookup_key "aaData" entries) as [jobArr|]; [|by left]. right.
    simpl in H. destruct jobArr; [done|..]; do 11 bind_step H; discriminate H.
  - intros (entries & -> & [Hkey | Hkey]); simpl; by rewrite Hkey.
Qed.

(** X14.  Of the table in [aaData] the extractor reads rows 0, 1, 3 and 11
    and nothing else: two responses whose tables agree on these four rows
    have the same outcome, record or error. *)
Theorem singleJob_reads_four_rows (content1 content2 : string)
    (entries1 entries2 : list (string * pyval)) (rows1 rows2 : list pyval) :
  json_loads content1 = Ret (PDict entries1) ->
  lookup_key "aaData" entries1 = Some (PList rows1) ->
  json_loads content2 = Ret (PDict entries2) ->
  lookup_key "aaData" entries2 = Some (PList rows2) ->
  (forall i : nat, i ∈ [0; 1; 3; 11]%nat -> rows1 !! i = rows2 !! i) ->
  parseSingleJobData lxml json_loads content1
  = parseSingleJobData lxml json_loads content2.
Proof.
  intros Hjson1 Hkey1 Hjson2 Hkey2 Hrows. unfold parseSingleJobData.
  rewrite Hjson1, Hjson2. simpl. rewrite Hkey1, Hkey2. simpl.
  rewrite (Hrows 0%nat), (Hrows 1%nat), (Hrows 3%nat), (Hrows 11%nat);
    [reflexivity | apply list_elem_of_In; simpl; auto..].
Qed.

Lemma singleJob_status_step (statusLines : pyval) (job job' : ParsedJob) :
  match statusLines with
  | PNone => Ret job
  | PStr s =>
      let p := Str.partition s "<br>" in
      Ret (set_status (PyVal (PStr (fst (fst p)))) job)
  | PBool _ | PInt _ | PList _ | PDict _ => Raise AttributeError
  end = Ret job' ->
  (statusLines = PNone /\ job' = job) \/
  (exists s, statusLines = PStr s /\
             job' = set_status (PyVal (PStr (fst (fst (Str.partition s "<br>"))))) job).
Proof. destruct statusLines; intros [= <-]; eauto. Qed.

Lemma singleJob_id_step (jobIdString : pyval) (job' : ParsedJob) :
  (soup ← BeautifulSoup_of lxml jobIdString;
   aLink ← attr_of (Soup.find soup "a" []);
   match Soup.contents aLink with
   | [] => Ret ParsedJob_init
   | _ :: _ =>
       x ← item (Soup.contents aLink) 0;
       n ← py_int (PyNode x);
       Ret (set_j_id n ParsedJob_init)
   end) = Ret job' ->
  exists markup aLink,
    jobIdString = PStr markup /\
    Soup.find (BeautifulSoup lxml markup) "a" [] = Some aLink /\
    match Soup.contents aLink with
    | [] => job' = ParsedJob_init
    | x :: _ => exists n, py_int (PyNode x) = Ret n /\ job' = set_j_id n ParsedJob_init
    end.
Proof.
  intros H. apply bind_Ret in H as (soup & Hsoup & H).
  destruct jobIdString as [| | |markup| |]; try discriminate Hsoup. injection Hsoup as <-.
  apply bind_Ret in H as (aLink & Ha & H).
  destruct (Soup.find (BeautifulSoup lxml markup) "a" []) as [a|] eqn:Hfind;
    simpl in Ha; [|discriminate]. injection Ha as ->.
  exists markup, aLink. split; [done|]. split; [done|].
  destruct (Soup.contents aLink) as [|x rest].
  - by injection H as <-.
  - simpl in H. apply bind_Ret in H as (n & Hn & H). injection H as <-. eauto.
Qed.

(** X15.  A record comes only out of a table of at least twelve rows whose
    rows 0, 1, 3 and 11 are objects, and its fields are read as follows:
    the id from the first anchor of the markup in row 0 (-1 when the
    anchor is empty), the agent from row 3 (the empty string when the row
    has no entry "1"), the status from row 11 up to the first [<br>], and
    the report id from row 1 when the agent is "spdx2tv" or "spdx2" and
    the status "Completed", -1 otherwise. *)
Theorem singleJob_fields (content : string) (job : ParsedJob) :
  parseSingleJobData lxml json_loads content = Ret (Some job) ->
  exists entries rows e0 e1 e3 e11 markup aLink,
    json_loads content = Ret (PDict entries) /\
    lookup_key "aaData" entries = Some (PList rows) /\
    (12 <= length rows)%nat /\
    rows !! 0%nat = Some (PDict e0) /\
    rows !! 1%nat = Some (PDict e1) /\
    rows !! 3%nat = Some (PDict e3) /\
    rows !! 11%nat = Some (PDict e11) /\
    lookup_key "1" e0 = Some (PStr markup) /\
    Soup.find (BeautifulSoup lxml markup) "a" [] = Some aLink /\
    match Soup.contents aLink with
    | [] => j_id job = -1
    | x :: _ => py_int (PyNode x) = Ret (j_id job)
    end /\
    agent job = PyVal (default (PStr "") (lookup_key "1" e3)) /\
    match lookup_key "1" e11 with
    | None | Some PNone => status job = PyVal (PStr "")
    | Some (PStr s) => status job = PyVal (PStr (fst (fst (Str.partition s "<br>"))))
    | Some _ => False
    end /\
    if (py_eq_str (agent job) "spdx2tv" || py_eq_str (agent job) "spdx2")
       && py_eq_str (status job) "Completed"
    then py_int (PyVal (default PNone (lookup_key "1" e1))) = Ret (reportId job)
    else reportId job = -1.
Proof.
  unfold parseSingleJobData. intros H.
  apply bind_Ret in H as (rj & Hrj & H).
  apply bind_Ret in H as (jobArr & HjobArr & H).
  apply py_get_Ret in HjobArr as (entries & -> & ->).
  destruct (lookup_key "aaData" entries) as [jobArr|] eqn:Hkey; [|discriminate H].
  simpl in H.
  assert ((jobIdRow ← py_index jobArr 0;
           jobIdString ← py_get jobIdRow "1" PNone;
           job ← match jobIdRow with
                 | PNone => Ret ParsedJob_init
                 | _ =>
                     soup ← BeautifulSoup_of lxml jobIdString;
                     aLink ← attr_of (Soup.find soup "a" []);
                     match Soup.contents aLink with
                     | [] => Ret ParsedJob_init
                     | _ :: _ =>
                         x ← item (Soup.contents aLink) 0;
                         n ← py_int (PyNode x);
                         Ret (set_j_id n ParsedJob_init)
                     end
                 end;
           jobAgentRow ← py_index jobArr 3;
           ag ← py_get jobAgentRow "1" (PStr "");
           let job := set_agent (PyVal ag) job in
           jobStatusRow ← py_index jobArr 11;
           statusLines ← py_get jobStatusRow "1" (PStr "");
           job ← match statusLines with
                 | PNone => Ret job
                 | PStr s =>
                     let p := Str.partition s "<br>" in
                     Ret (set_status (PyVal (PStr (fst (fst p)))) job)
                 | PBool _ | PInt _ | PList _ | PDict _ => Raise AttributeError
                 end;
           jobReportIdRow ← py_index jobArr 1;
           jobReportIdString ← py_get jobReportIdRow "1" PNone;
           job ← (if (py_eq_str (agent job) "spdx2tv" || py_eq_str (agent job) "spdx2")
                     && py_eq_str (status job) "Completed"
                  then r ← py_int (PyVal jobReportIdString); Ret (set_reportId r job)
                  else Ret job);
           Ret (Some job)) = Ret (Some job)) as H'.
  { by destruct jobArr. }
  clear H. rename H' into H.
  apply bind_Ret in H as (row0 & Hrow0 & H).
  apply bind_Ret in H as (jobIdString & Hid & H).
  apply py_get_Ret in Hid as (e0 & -> & ->).
  apply py_index_list in Hrow0 as (rows & -> & Hrow0).
  apply bind_Ret in H as (job0 & Hjob0 & H).
  apply singleJob_id_step in Hjob0 as (markup & aLink & Hmarkup & Ha & Hjob0).
  apply bind_Ret in H as (row3 & Hrow3 & H).
  apply bind_Ret in H as (ag & Hag & H).
  apply py_get_Ret in Hag as (e3 & -> & ->). cbv beta zeta in H.
  apply bind_Ret in H as (row11 & Hrow11 & H).
  apply bind_Ret in H as (statusLines & Hstatus & H).
  apply py_get_Ret in Hstatus as (e11 & -> & ->).
  apply bind_Ret in H as (job1 & Hjob1 & H).
  apply bind_Ret in H as (row1 & Hrow1 & H).
  apply bind_Ret in H as (reportString & Hreport & H).
  apply py_get_Ret in Hreport as (e1 & -> & ->).
  apply bind_Ret in H as (job2 & Hjob2 & H). injection H as <-.
  simpl in Hrow3, Hrow11, Hrow1.
  destruct (rows !! 3%nat) as [r3|] eqn:H3; [|discriminate]. injection Hrow3 as ->.
  destruct (rows !! 11%nat) as [r11|] eqn:H11; [|discriminate]. injection Hrow11 as ->.
  destruct (rows !! 1%nat) as [r1|] eqn:H1; [|discriminate]. injection Hrow1 as ->.
  exists entries, rows, e0, e1, e3, e11, markup, aLink.
  split; [done|]. split; [done|].
  split; [apply lookup_lt_Some in H11; lia|].
  do 4 (split; [done|]).
  split; [by destruct (lookup_key "1" e0) as [v|]; simpl in Hmarkup; subst|].
  split; [done|].
  assert (reportId job1 = -1 /\ agent job1 = PyVal (default (PStr "") (lookup_key "1" e3))
          /\ j_id job1 = j_id job0 /\
          match lookup_key "1" e11 with
          | None | Some PNone => status job1 = PyVal (PStr "")
          | Some (PStr s) =>
              status job1 = PyVal (PStr (fst (fst (Str.partition s "<br>"))))
          | Some _ => False
          end) as (Hrep1 & Hagent1 & Hid1 & Hstatus1).
  { assert (reportId job0 = -1 /\ status job0 = PyVal (PStr "")) as [Hr0 Hs0].
    { destruct (Soup.contents aLink); [by subst|].
      destruct Hjob0 as (m & _ & ->). done. }
    apply singleJob_status_step in Hjob1 as [[Hnone ->] | (s & Hs & ->)]; simpl.
    - repeat (split; [done|]).
      destruct (lookup_key "1" e11) as [v|]; simpl in Hnone; [by subst | discriminate].
    - repeat (split; [done|]).
      destruct (lookup_key "1" e11) as [v|]; simpl in Hs; [by subst|].
      injection Hs as <-. done. }
  assert (j_id job2 = j_id job0 /\ agent job2 = agent job1 /\ status job2 = status job1 /\
          if (py_eq_str (agent job1) "spdx2tv" || py_eq_str (agent job1) "spdx2")
             && py_eq_str (status job1) "Completed"
          then py_int (PyVal (default PNone (lookup_key "1" e1))) = Ret (reportId job2)
          else reportId job2 = -1) as (Hid2 & Hagent2 & Hstatus2 & Hrep2).
  { destruct (_ && _).
    - apply bind_Ret in Hjob2 as (r & Hr & Hjob2). by injection Hjob2 as <-.
    - by injection Hjob2 as <-. }
  rewrite Hagent2, Hstatus2, Hid2.
  split; [by destruct (Soup.contents aLink); [subst | destruct Hjob0 as (m & ? & ->)]|].
  split; [done|]. split; [|done].
  destruct (lookup_key "1" e11) as [[]|]; done.
Qed.

(** X16.  The status of a record from the single-job extractor never holds
    the separator: it is text without [<br>]. *)
Theorem singleJob_status_before_br (content : string) (job : ParsedJob) :
  parseSingleJobData lxml json_loads content = Ret (Some job) ->
  exists s, status job = PyVal (PStr s) /\ Str.contains "<br>" s = false.
Proof.
  unfold parseSingleJobData. intros H.
  do 2 bind_step H.
  destruct x0; [done|..]; do 11 bind_step H; injection H as <-.
  all: assert (status x2 = PyVal (PStr "")) as Hs2 by
    (clear - Hx3; destruct x0; [by injection Hx3 as <- |..];
     do 2 bind_step Hx3; (destruct (Soup.contents _); [by injection Hx3 as <- |]);
     do 2 bind_step Hx3; by injection Hx3 as <-).
  all: assert (exists s, status x7 = PyVal (PStr s) /\ Str.contains "<br>" s = false) as Hs7
    by (apply singleJob_status_step in Hx8 as [[_ ->] | (t & _ & ->)]; simpl;
        [by exists "" |];
        eexists; split; [done|]; unfold Str.partition;
        destruct (Str.find "<br>" t) as [[before rest]|] eqn:Hfind; simpl;
        [by eapply find_before_free | unfold Str.contains; by rewrite Hfind]).
  all: destruct (_ && _) in Hx11;
    [bind_step Hx11; by injection Hx11 as <- | by injection Hx11 as <-].
Qed.

End Coverage.

(** ** The ajax envelope *)

Section EnvelopeFacts.

Variable json_loads : string -> result pyval.
Variable unicode_escape : string -> result string.

(** X17.  The envelope decoder returns exactly when the decoded JSON is an
    object whose [showJobsData] entry is a string and the escape codec
    accepts the UTF-8 bytes of that string; what it returns is then what
    the codec returns.  A missing entry, a null entry or an entry of
    another type never yields a result. *)
Theorem decodeAjax_returns_iff (content s2 : string) :
  decodeAjaxShowJobsData json_loads unicode_escape content = Ret s2 <->
  exists entries s1,
    json_loads content = Ret (PDict entries) /\
    lookup_key "showJobsData" entries = Some (PStr s1) /\
    unicode_escape (utf8_encode s1) = Ret s2.
Proof.
  unfold decodeAjaxShowJobsData. split.
  - intros H. apply bind_Ret in H as (rj & Hrj & H).
    apply bind_Ret in H as (v & Hv & H).
    apply bind_Ret in H as (b1 & Hb1 & H).
    apply bind_Ret in H as (s & Hs & H). injection H as <-.
    destruct rj as [| | | | |entries]; try discriminate Hv. simpl in Hv.
    destruct (lookup_key "showJobsData" entries) as [v'|] eqn:Hkey; [|discriminate].
    injection Hv as ->.
    destruct v as [| | |s1| |]; try discriminate Hb1. injection Hb1 as <-.
    by exists entries, s1.
  - intros (entries & s1 & -> & Hkey & Hcodec). simpl. rewrite Hkey. simpl.
    by rewrite Hcodec.
Qed.

(** X18.  The bytes handed to the escape codec are the characters of the
    payload exactly when all of them are below 128; the decoder then
    returns what the codec makes of the payload text itself. *)
Theorem decodeAjax_ascii (content : string) (entries : list (string * pyval)) (s1 : string) :
  json_loads content = Ret (PDict entries) ->
  lookup_key "showJobsData" entries = Some (PStr s1) ->
  (utf8_encode s1 = s1 <-> is_ascii s1 = true) /\
  (is_ascii s1 = true ->
   decodeAjaxShowJobsData json_loads unicode_escape content = unicode_escape s1).
Proof.
  intros Hrj Hkey.
  assert (utf8_encode s1 = s1 <-> is_ascii s1 = true) as Hiff.
  { clear. induction s1 as [|c s IH]; simpl; [done|].
    unfold utf8_char. destruct (N_of_ascii c <? 128)%N; unfold_append; simpl.
    - rewrite <- IH. split; [by intros [= ->] | by intros ->].
    - split; [|discriminate]. intros [= _ Hrest].
      pose proof (utf8_length s) as Hlen. apply (f_equal String.length) in Hrest.
      simpl in Hrest. lia. }
  split; [exact Hiff|]. intros Hascii. apply Hiff in Hascii.
  unfold decodeAjaxShowJobsData. rewrite Hrj. simpl. rewrite Hkey. simpl.
  rewrite Hascii. by destruct (unicode_escape s1).
Qed.

End EnvelopeFacts.

(** ** Whole calls *)

Lemma for_append_skip {A B} (body : A -> result (option B)) before x after :
  body x = Ret None ->
  for_append body (before ++ x :: after) [] = for_append body (before ++ after) [].
Proof.
  intros Hx. rewrite !for_append_app. simpl. by rewrite Hx.
Qed.

Lemma for_append_keep {A B} (body : A -> result (option B)) before x after b out1 out2 :
  body x = Ret (Some b) ->
  for_append body before [] = Ret out1 ->
  for_append body after [] = Ret out2 ->
  for_append body (before ++ x :: after) [] = Ret (out1 ++ b :: out2).
Proof.
  intros Hx Hbefore Hafter. rewrite for_append_app, Hbefore. simpl.
  rewrite Hx. simpl. rewrite for_append_acc, Hafter. reflexivity.
Qed.

Lemma jobOfRow_not_dataRow (row : node) : dataRow row = false -> jobOfRow row = Ret None.
Proof.
  unfold dataRow, jobOfRow. destruct (Soup.get row "class"); [|done].
  intros Hlen. apply Nat.leb_gt in Hlen.
  destruct (_ <? _)%nat eqn:Hlt; [done|]. apply Nat.ltb_ge in Hlt. lia.
Qed.

Lemma jobTable_of_data_rows (rows : list node) :
  forall jobs,
    Forall2 (fun row job => jobOfRow row = Ret (Some job)) (List.filter dataRow rows) jobs ->
    for_append jobOfRow rows [] = Ret jobs.
Proof.
  induction rows as [|row rows IH]; intros jobs H; simpl in H.
  - by inversion H.
  - simpl. destruct (dataRow row) eqn:Hrow.
    + inversion H as [|? job ? jobs' Hjob Hrest]; subst.
      rewrite Hjob. simpl. rewrite for_append_acc, (IH _ Hrest). reflexivity.
    + rewrite (jobOfRow_not_dataRow _ Hrow). simpl. by apply IH.
Qed.

Lemma parseAll_raise_split (lxml : string -> list node) (uploadData : list pyval) (e : exn) :
  parseAllUploadDataForFolder lxml uploadData = Raise e ->
  exists before lineItem after,
    uploadData = before ++ lineItem :: after /\
    Forall (fun x => returns (parseUploadDataForFolderLineItem lxml x)) before /\
    parseUploadDataForFolderLineItem lxml lineItem = Raise e.
Proof.
  unfold parseAllUploadDataForFolder. intros H.
  apply for_append_Raise in H as (before & x & after & Hxs & Hbefore & Hx).
  exists before, x, after. split; [done|]. split.
  - eapply Forall_impl; [exact Hbefore|]. intros y [o Ho].
    destruct (parseUploadDataForFolderLineItem lxml y) as [u|e']; [by eexists | discriminate].
  - destruct (parseUploadDataForFolderLineItem lxml x); [discriminate | by injection Hx as ->].
Qed.

Section WholeCalls.

Variable lxml : string -> list node.

(** C3 (as amended).  In the job table a row without a [class] attribute
    does not count, whatever its cells hold: the outcome of the call is
    that of the loop over the other rows.  The same goes for a row of fewer
    than eight cells.  The call returns a list of jobs exactly when that
    list holds, in order, the jobs of the rows that have a class and eight
    cells or more.  When the other rows are read without error, a row of
    eight cells with a job id, status "Completed", an agent, and a cell-7
    anchor whose [href] reads exactly [99] after its first [report=] gives,
    at its place among the jobs of the other rows, a job whose [reportId]
    is 99. *)
Theorem jobTable_rows (content : string) :
  let rows := Soup.find_all (BeautifulSoup lxml content) "tr" [] in
  (forall before row after,
     rows = before ++ row :: after ->
     Soup.get row "class" = None ->
     parseDecodedAjaxShowJobsData lxml content = jobsOfRows (before ++ after)) /\
  (forall before row after,
     rows = before ++ row :: after ->
     (length (Soup.find_all row "td" []) < 8)%nat ->
     parseDecodedAjaxShowJobsData lxml content = jobsOfRows (before ++ after)) /\
  (forall jobs,
     parseDecodedAjaxShowJobsData lxml content = Ret jobs <->
     Forall2 (fun row job => jobOfRow row = Ret (Some job))
       (List.filter dataRow rows) jobs) /\
  (forall before row after n st ag jobs1 jobs2,
     rows = before ++ row :: after ->
     completed_row_99 row n st ag ->
     jobsOfRows before = Ret jobs1 ->
     jobsOfRows after = Ret jobs2 ->
     parseDecodedAjaxShowJobsData lxml content
     = Ret (jobs1 ++ mkJob n (PyNode st) (PyNode ag) 99 :: jobs2)).
Proof.
  intros rows. unfold parseDecodedAjaxShowJobsData, jobsOfRows. cbv zeta. fold rows.
  split; [|split; [|split]].
  - intros before row after Hrows Hclass. rewrite Hrows. apply for_append_skip.
    unfold jobOfRow. by rewrite Hclass.
  - intros before row after Hrows Hlen. rewrite Hrows. apply for_append_skip.
    unfold jobOfRow. destruct (Soup.get row "class"); [|done].
    apply Nat.ltb_lt in Hlen. by rewrite Hlen.
  - intros jobs. split; [apply jobTable_data_rows | apply jobTable_of_data_rows].
  - intros before row after n st ag jobs1 jobs2 Hrows Hrow Hbefore Hafter.
    rewrite Hrows.
    apply for_append_keep; [by apply jobOfRow_completed_99 | done | done].
Qed.

(** C8 (as amended).  The upload listing is all or nothing.  Either every
    line item can be extracted, and the call returns a list as long as the
    input whose record at each position is the one extracted from the line
    item at that position; or the extraction of some line item raises, and
    the call raises the error of the first such line item and returns no
    list.  No line item is left out and none changes place. *)
Theorem parseAll_all_or_nothing (uploadData : list pyval) :
  (exists us,
     parseAllUploadDataForFolder lxml uploadData = Ret us /\
     length us = length uploadData /\
     Forall2 (fun lineItem u => parseUploadDataForFolderLineItem lxml lineItem = Ret u)
       uploadData us) \/
  (exists before lineItem after e,
     uploadData = before ++ lineItem :: after /\
     Forall (fun x => returns (parseUploadDataForFolderLineItem lxml x)) before /\
     parseUploadDataForFolderLineItem lxml lineItem = Raise e /\
     parseAllUploadDataForFolder lxml uploadData = Raise e).
Proof.
  destruct (parseAllUploadDataForFolder lxml uploadData) as [us|e] eqn:H.
  - left. exists us. split; [done|]. apply parseAll_rows in H.
    split; [|done]. symmetry. by eapply Forall2_length.
  - right. apply parseAll_raise_split in H as (before & x & after & Hxs & Hbefore & Hx).
    exists before, x, after, e. done.
Qed.

End WholeCalls.

(** ** The further samples, run through the extractors *)

Lemma lineItem_record_witness :
  parseUploadDataForFolderLineItem Sample.lxml (Fixture.line_item Sample.upload_row 7)
  = Ret Sample.upload_record /\
  folderId Sample.upload_record = -1 /\
  spdxTvUrl Sample.upload_record = PyVal PNone.
Proof.
  split; [reflexivity|].
  destruct (lineItem_record Sample.lxml (Fixture.line_item Sample.upload_row 7)
              Sample.upload_record eq_refl)
    as (markup & b & cell2 & i & Hcell0 & _ & _ & _ & _ & _ & Hfolder & _ & Htv).
  split; [exact Hfolder|]. rewrite Htv.
  injection Hcell0 as <-. reflexivity.
Defined.

Lemma lineItem_missing_id_cell_witness :
  parseUploadDataForFolderLineItem Fixture.lxml (PList [PStr Fixture.bold; PStr ""])
  = Raise IndexError /\
  parseUploadDataForFolderLineItem Fixture.lxml
    (PList [PStr Fixture.bold; PStr ""; PList []])
  = Raise IndexError.
Proof.
  split.
  - apply (lineItem_missing_id_cell Fixture.lxml _ Fixture.bold
             (Tag "b" [] [NavigableString "pkg"])); [reflexivity | reflexivity |].
    left. simpl. lia.
  - apply (lineItem_missing_id_cell Fixture.lxml _ Fixture.bold
             (Tag "b" [] [NavigableString "pkg"])); [reflexivity | reflexivity |].
    right. reflexivity.
Defined.

Lemma parseAll_one_record_per_row_witness :
  length [Fixture.upload 7; Fixture.upload 8] = length Fixture.listing /\
  exists u, [Fixture.upload 7; Fixture.upload 8] !! 1%nat = Some u /\
            parseUploadDataForFolderLineItem Fixture.lxml
              (Fixture.line_item Fixture.bold 8) = Ret u.
Proof.
  destruct (parseAll_one_record_per_row Fixture.lxml Fixture.listing
              [Fixture.upload 7; Fixture.upload 8] eq_refl) as [Hlen Hrows].
  split; [exact Hlen|]. apply Hrows. reflexivity.
Defined.

Lemma parseAll_raises_iff_witness :
  parseAllUploadDataForFolder Fixture.lxml
    [Fixture.line_item Fixture.bold 7; Fixture.line_item Fixture.no_bold 8;
     Fixture.line_item Fixture.bold 9]
  = Raise AttributeError.
Proof.
  apply (parseAll_raises_iff Fixture.lxml).
  exists [Fixture.line_item Fixture.bold 7], (Fixture.line_item Fixture.no_bold 8),
    [Fixture.line_item Fixture.bold 9].
  split; [reflexivity|]. split; [|reflexivity].
  constructor; [|constructor]. exists (Fixture.upload 7). reflexivity.
Defined.

Lemma folderNumber_raises_iff_witness :
  parseFolderNumber Sample.lxml Sample.folders_no_value "Engineering" = Raise KeyError.
Proof.
  apply (folderNumber_raises_iff Sample.lxml). split; [reflexivity|].
  exists [], (Tag "option" [] [NavigableString "Engineering"]),
    [Tag "option" [("value", "9")] [NavigableString "Engineering"]].
  split; [reflexivity|]. split; [constructor|]. split; reflexivity.
Defined.

Lemma folderNumber_blank_edge_name_witness :
  parseFolderNumber Fixture.lxml Fixture.folders_padded " Engineering" = Ret None /\
  parseFolderNumber Fixture.lxml Fixture.folders_padded "Engineering " = Ret None.
Proof.
  split.
  - apply (folderNumber_blank_edge_name Fixture.lxml). left. reflexivity.
  - apply (folderNumber_blank_edge_name Fixture.lxml). right. reflexivity.
Defined.

Lemma newUploadNumber_returns_witness :
  exists href,
    Str.contains "upload=" href = true /\
    Str.to_int (snd (Str.partition href "upload=")) = Ret 42.
Proof.
  destruct (newUploadNumber_returns Fixture.lxml Fixture.upload_link 42 eq_refl)
    as [[_ Hsentinel] | (before & a & after & href & _ & _ & _ & Hcontains & Hint)].
  - discriminate Hsentinel.
  - exists href. split; assumption.
Defined.

Lemma newUploadNumber_raises_witness :
  parseAnchorTagsForNewUploadNumber Fixture.lxml Fixture.upload_link_more
  = Raise ValueError /\
  ~ (exists e, parseAnchorTagsForNewUploadNumber Fixture.lxml Fixture.upload_link = Raise e).
Proof.
  split.
  - apply (newUploadNumber_raises Fixture.lxml Fixture.upload_link_more).
    split; [reflexivity|].
    exists [], (Tag "a" [("href", "x?upload=42&foo=1")] [NavigableString "new"]), [],
      "x?upload=42&foo=1".
    split; [reflexivity|]. split; [constructor|]. split; [reflexivity|].
    split; reflexivity.
  - intros [e He].
    apply (newUploadNumber_raises Fixture.lxml Fixture.upload_link) in He
      as (_ & before & a & after & href & Hsplit & Hbefore & Hhref & Hcontains & Hint).
    destruct before as [|a0 [|a1 before]]; simpl in Hsplit.
    + injection Hsplit as <- _. discriminate Hhref.
    + injection Hsplit as _ <- _. injection Hhref as <-. discriminate Hint.
    + injection Hsplit as _ _ Hrest. by destruct before.
Defined.

Lemma jobOfRow_fields_witness :
  jobOfRow Sample.not_started_row
  = Ret (Some (mkJob 12 (PyVal (PStr "Not started")) (PyNode (NavigableString "nomos")) (-1)))
  /\ exists x, py_int (PyNode x) = Ret 12.
Proof.
  split; [reflexivity|].
  destruct (jobOfRow_fields Sample.not_started_row
              (mkJob 12 (PyVal (PStr "Not started")) (PyNode (NavigableString "nomos")) (-1))
              eq_refl)
    as (c0 & c1 & c2 & c7 & a & x & ag & _ & _ & _ & _ & _ & _ & Hid & _).
  exists x. exact Hid.
Defined.

Lemma jobTable_raises_iff_witness :
  parseDecodedAjaxShowJobsData Sample.lxml Sample.jobs_no_id = Raise AttributeError.
Proof.
  apply (jobTable_raises_iff Sample.lxml).
  exists [Fixture.data_row], Sample.no_id_row, [].
  split; [reflexivity|]. split; [|split; reflexivity].
  constructor; [|constructor]. exists (Some Fixture.table_job). reflexivity.
Defined.

Lemma jobOfRow_bad_report_link_witness :
  jobOfRow Sample.no_href_row = Raise AttributeError /\
  jobOfRow Sample.no_marker_row = Raise ValueError /\
  jobOfRow Sample.no_link_row
  = Ret (Some (mkJob 12 (PyNode (NavigableString "Completed"))
                 (PyNode (NavigableString "nomos")) (-1))).
Proof.
  split; [|split; [|reflexivity]].
  - apply (jobOfRow_bad_report_link Sample.no_href_row None).
    unfold completed_row_link. repeat eexists; reflexivity.
  - apply (jobOfRow_bad_report_link Sample.no_marker_row (Some "dl?id=99"));
      [|reflexivity].
    unfold completed_row_link. repeat eexists; reflexivity.
Defined.

Lemma singleJob_None_iff_witness :
  parseSingleJobData Fixture.lxml Sample.json_loads Sample.null_table = Ret None /\
  parseSingleJobData Fixture.lxml Sample.json_loads Fixture.empty_object = Ret None.
Proof.
  split.
  - apply (singleJob_None_iff Fixture.lxml Sample.json_loads).
    exists [("aaData", PNone)]. split; [reflexivity|]. right. reflexivity.
  - apply (singleJob_None_iff Fixture.lxml Sample.json_loads).
    exists []. split; [reflexivity|]. left. reflexivity.
Defined.

Lemma singleJob_reads_four_rows_witness :
  parseSingleJobData Fixture.lxml Sample.json_loads Fixture.job_table
  = parseSingleJobData Fixture.lxml Sample.json_loads Sample.wide_job_table /\
  Sample.job_rows <> Sample.wide_job_rows.
Proof.
  split; [|discriminate].
  apply (singleJob_reads_four_rows Fixture.lxml Sample.json_loads
           Fixture.job_table Sample.wide_job_table
           [("aaData", PList Sample.job_rows)] [("aaData", PList Sample.wide_job_rows)]
           Sample.job_rows Sample.wide_job_rows eq_refl eq_refl eq_refl eq_refl).
  intros i Hi. apply list_elem_of_In in Hi. simpl in Hi.
  destruct Hi as [<- | [<- | [<- | [<- | []]]]]; reflexivity.
Defined.

Lemma singleJob_fields_witness :
  parseSingleJobData Fixture.lxml Fixture.json_loads Fixture.job_table
  = Ret (Some Fixture.single_job) /\
  agent Fixture.single_job = PyVal (PStr "spdx2") /\
  exists v, py_int (PyVal v) = Ret 99.
Proof.
  split; [reflexivity|].
  destruct (singleJob_fields Fixture.lxml Fixture.json_loads Fixture.job_table
              Fixture.single_job eq_refl)
    as (entries & rows & e0 & e1 & e3 & e11 & markup & aLink & _ & _ & _ & _ & _ & _ & _
        & _ & _ & _ & _ & _ & Hreport).
  split; [reflexivity|]. eexists. exact Hreport.
Defined.

Lemma singleJob_status_before_br_witness :
  exists s, status Fixture.single_job = PyVal (PStr s) /\ Str.contains "<br>" s = false.
Proof.
  apply (singleJob_status_before_br Fixture.lxml Fixture.json_loads Fixture.job_table).
  reflexivity.
Defined.

Lemma decodeAjax_returns_iff_witness :
  decodeAjaxShowJobsData Sample.json_loads Sample.unicode_escape Sample.envelope
  = Ret "<table></table>".
Proof.
  apply (decodeAjax_returns_iff Sample.json_loads Sample.unicode_escape).
  exists [("showJobsData", PStr "<table></table>")], "<table></table>".
  split; [reflexivity|]. split; reflexivity.
Defined.

Lemma decodeAjax_ascii_witness :
  (utf8_encode "<table></table>" = "<table></table>"
   <-> is_ascii "<table></table>" = true) /\
  decodeAjaxShowJobsData Sample.json_loads Sample.unicode_escape Sample.envelope
  = Sample.unicode_escape "<table></table>".
Proof.
  destruct (decodeAjax_ascii Sample.json_loads Sample.unicode_escape Sample.envelope
              [("showJobsData", PStr "<table></table>")] "<table></table>"
              eq_refl eq_refl) as [Hiff Hdecode].
  split; [exact Hiff | apply Hdecode; reflexivity].
Defined.

(** ** The probing samples *)

(** C3, the claim as stated fails: the row of [jobs_990] has a class, eight
    cells, status "Completed" and a cell-7 anchor whose [href] contains
    [report=99], yet its report id is 990; and a row with all that and an
    [href] ending in [report=99], but no anchor in cell 0, gives no job: the
    call raises. *)
Lemma jobTable_href_990 :
  Soup.find_all (BeautifulSoup Probe.lxml Probe.jobs_990) "tr" [] = [Probe.row_990] /\
  Soup.get Probe.row_990 "class" = Some "x" /\
  length (Soup.find_all Probe.row_990 "td" []) = 8%nat /\
  Str.contains "report=99" "dl?report=990" = true /\
  parseDecodedAjaxShowJobsData Probe.lxml Probe.jobs_990 = Ret [Probe.job_990] /\
  reportId Probe.job_990 <> 99 /\
  Soup.find_all (BeautifulSoup Probe.lxml Probe.jobs_no_id) "tr" [] = [Probe.row_no_id] /\
  parseDecodedAjaxShowJobsData Probe.lxml Probe.jobs_no_id = Raise AttributeError.
Proof. repeat split; (reflexivity || discriminate). Qed.

Lemma jobTable_rows_witness :
  parseDecodedAjaxShowJobsData Fixture.lxml Fixture.jobs = Ret [Fixture.table_job] /\
  parseDecodedAjaxShowJobsData Fixture.lxml Fixture.jobs
  = jobsOfRows [Fixture.short_row; Fixture.data_row] /\
  parseDecodedAjaxShowJobsData Fixture.lxml Fixture.jobs
  = jobsOfRows [Fixture.header_row; Fixture.data_row] /\
  Forall2 (fun row job => jobOfRow row = Ret (Some job))
    [Fixture.data_row] [Fixture.table_job].
Proof.
  destruct (jobTable_rows Fixture.lxml Fixture.jobs) as (Hclass & Hshort & Hjobs & Hrow).
  assert (completed_row_99 Fixture.data_row 12 (NavigableString "Completed")
            (NavigableString "spdx2")) as Hdata.
  { unfold completed_row_99. repeat eexists; reflexivity. }
  assert (parseDecodedAjaxShowJobsData Fixture.lxml Fixture.jobs = Ret [Fixture.table_job])
    as Hcall.
  { apply (Hrow [Fixture.header_row; Fixture.short_row] Fixture.data_row [] 12
             (NavigableString "Completed") (NavigableString "spdx2") [] []);
      [reflexivity | exact Hdata | reflexivity | reflexivity]. }
  split; [exact Hcall|]. split; [|split].
  - apply (Hclass [] Fixture.header_row [Fixture.short_row; Fixture.data_row]);
      reflexivity.
  - apply (Hshort [Fixture.header_row] Fixture.short_row [Fixture.data_row]);
      [reflexivity | simpl; lia].
  - apply (proj1 (Hjobs [Fixture.table_job]) Hcall).
Defined.

(** C6, the claim as stated fails: the input element is there, without a
    [value]; the lookup returns the absent value and logs no warning. *)
Lemma formBuildToken_no_value_no_warning :
  Soup.find (BeautifulSoup Probe.lxml Probe.token_no_value) "input"
    [("name", "uploadformbuild")] = Some Probe.input_no_value /\
  Soup.get Probe.input_no_value "value" = None /\
  parseUploadFormBuildToken Probe.lxml Probe.token_no_value = (Ret None, []).
Proof. repeat split; reflexivity. Qed.

(** C8, the claim as stated fails: the second of three line items cannot be
    extracted; it is not left out of a list of two records, the call
    returns no list at all. *)
Lemma parseAll_failing_row_aborts :
  parseAllUploadDataForFolder Fixture.lxml Probe.listing = Raise AttributeError /\
  ~ (exists us,
       parseAllUploadDataForFolder Fixture.lxml Probe.listing = Ret us /\
       (length us <= length Probe.listing)%nat).
Proof.
  split; [reflexivity|]. intros (us & H & _). discriminate H.
Qed.

Lemma parseAll_all_or_nothing_witness :
  (exists us,
     parseAllUploadDataForFolder Fixture.lxml Fixture.listing = Ret us /\
     length us = length Fixture.listing) /\
  (exists before lineItem after e,
     Probe.listing = before ++ lineItem :: after /\
     parseUploadDataForFolderLineItem Fixture.lxml lineItem = Raise e /\
     parseAllUploadDataForFolder Fixture.lxml Probe.listing = Raise e).
Proof.
  split.
  - destruct (parseAll_all_or_nothing Fixture.lxml Fixture.listing)
      as [(us & Hret & Hlen & _) | (before & x & after & e & _ & _ & _ & Hraise)].
    + exists us. split; assumption.
    + discriminate Hraise.
  - destruct (parseAll_all_or_nothing Fixture.lxml Probe.listing)
      as [(us & Hret & _) | (before & x & after & e & Hsplit & _ & Hx & Hraise)].
    + discriminate Hret.
    + exists before, x, after, e. split; [exact Hsplit|]. split; assumption.
Defined.
